(** * Call_Orit: session state, quota gate and broadcast fan-out

    A shallow embedding of [src/main.py] (a Telegram bot built on aiogram,
    sqlite3 and the OpenAI client) and the properties of its quota engine,
    dialog state machine, broadcast loop and administrator commands.

    The embedding follows the source handler by handler.  Every handler is a
    computation in a small state-and-exception monad [M] over a [World]
    (the [users] table as the single sqlite connection sees it, the aiogram
    FSM storage, and the trace of outbound API calls).  Which external calls
    raise in a given run is decided by an [Env]: a failure oracle indexed by
    the call site in the source.  Log lines ([logger.*]) have no effect on the
    behaviour and are left out. *)

From Stdlib Require Import ZArith String List Lia Bool.
From stdpp Require Import base gmap list strings pretty sorting.

(* ===================================================================== *)
(** * The [users] table *)
(* ===================================================================== *)

(** Line 62. *)
Definition FREE_USES_LIMIT : Z := 10.

(** The value written by [/activate] (line 334). *)
Definition UNLIMITED_SENTINEL : Z := 999.

(** One row of [users] (lines 68-72); [user_id INTEGER PRIMARY KEY] is the
    key of the map below. *)
Record Row := mkRow {
  uses_left : Z;
  last_active : string
}.

#[global] Instance Row_eq_dec : EqDecision Row.
Proof. solve_decision. Defined.

Module Sql.

(** [INSERT INTO users (user_id, last_active) VALUES (?, ?)
     ON CONFLICT(user_id) DO UPDATE SET last_active=excluded.last_active]
    (lines 122-126); a fresh row takes [uses_left] from the column default
    declared by [init_db] (line 70). *)
Definition upsert (user_id : Z) (now : string) (t : gmap Z Row) : gmap Z Row :=
  match t !! user_id with
  | Some r => <[user_id := mkRow (uses_left r) now]> t
  | None => <[user_id := mkRow FREE_USES_LIMIT now]> t
  end.

(** [UPDATE users SET uses_left = 999 WHERE user_id = ?] (line 334). *)
Definition activate (user_id : Z) (t : gmap Z Row) : gmap Z Row :=
  alter (λ r, mkRow UNLIMITED_SENTINEL (last_active r)) user_id t.

(** [cursor.rowcount] after a single-key [UPDATE]. *)
Definition rowcount (user_id : Z) (t : gmap Z Row) : nat :=
  match t !! user_id with Some _ => 1 | None => 0 end.

(** [UPDATE users SET uses_left = uses_left - 1 WHERE user_id = ?]
    (line 434). *)
Definition decrement (user_id : Z) (t : gmap Z Row) : gmap Z Row :=
  alter (λ r, mkRow (uses_left r - 1) (last_active r)) user_id t.

(** [SELECT uses_left FROM users WHERE user_id = ?] then [fetchone()]. *)
Definition select_uses_left (user_id : Z) (t : gmap Z Row) : option Z :=
  uses_left <$> t !! user_id.

(** [SELECT user_id FROM users] then [fetchall()] (lines 230-231); sqlite
    scans an [INTEGER PRIMARY KEY] table in key order. *)
Definition select_user_ids (t : gmap Z Row) : list Z :=
  merge_sort Z.le (map fst (map_to_list t)).

(** [SELECT COUNT( * ), SUM(uses_left) FROM users] (line 135); [SUM] over
    no rows is NULL, Python's [None]. *)
Definition count_all (t : gmap Z Row) : nat := size t.

Definition sum_uses_left (t : gmap Z Row) : option Z :=
  match map_to_list t with
  | [] => None
  | rows => Some (foldr (λ kr acc, uses_left (snd kr) + acc)%Z 0%Z rows)
  end.

(** [SELECT COUNT( * ) FROM users WHERE uses_left < ?] (lines 137, 147). *)
Definition count_below (limit : Z) (t : gmap Z Row) : nat :=
  length (filter (λ kr, uses_left (snd kr) < limit)%Z (map_to_list t)).

(** [SELECT user_id, uses_left, last_active FROM users
     ORDER BY last_active DESC LIMIT 20] (line 195).  Text columns compare
    bytewise; rows with the same [last_active] come out in the order of the
    table scan, which is by [user_id]. *)
Definition listed_before (a b : Z * Row) : Prop :=
  (last_active a.2 = last_active b.2 ∧ (a.1 <= b.1)%Z) ∨
  (last_active a.2 ≠ last_active b.2 ∧
   String.leb (last_active b.2) (last_active a.2) = true).

#[global] Instance listed_before_dec a b : Decision (listed_before a b).
Proof. unfold listed_before. apply _. Defined.

Definition select_recent (limit : nat) (t : gmap Z Row) : list (Z * Row) :=
  take limit (merge_sort listed_before (map_to_list t)).

(** sqlite3 refuses a Python int outside the signed 64-bit range as a
    statement parameter ([OverflowError]). *)
Definition fits_int64 (z : Z) : bool :=
  ((- 2 ^ 63 <=? z) && (z <? 2 ^ 63))%Z.

End Sql.

(* ===================================================================== *)
(** * Dialog state, messages, outbound calls *)
(* ===================================================================== *)

(** Lines 97-100.  The FSM storage holds no entry for a user in the default
    state; [state.clear()] removes the entry. *)
Inductive GenStates := await_photo | await_broadcast.

#[global] Instance GenStates_eq_dec : EqDecision GenStates.
Proof. solve_decision. Defined.

(** What the spec calls [Idle], [AwaitingPhoto], [AwaitingBroadcastText]. *)
Definition Idle : option GenStates := None.
Definition AwaitingPhoto : option GenStates := Some await_photo.
Definition AwaitingBroadcastText : option GenStates := Some await_broadcast.

(** The fields of an aiogram [Message] the handlers read. *)
Record Message := mkMessage {
  from_user : Z;              (* message.from_user.id *)
  chat : Z;                   (* message.chat.id *)
  text : option string;       (* message.text, None for a photo *)
  username : option string    (* message.from_user.username *)
}.

(** A chat is addressed by a numeric id or, for [CHANNEL_ID], by the string
    read from the environment. *)
Inductive ChatId := chat_int (z : Z) | chat_name (s : string).

#[global] Instance ChatId_eq_dec : EqDecision ChatId.
Proof. solve_decision. Defined.

Inductive Call :=
| send_message (chat_id : ChatId) (body : string)
| delete_message (chat_id : ChatId)
| get_file
| download_file
| chat_completions_create.

#[global] Instance Call_eq_dec : EqDecision Call.
Proof. solve_decision. Defined.

Record World := mkWorld {
  users : gmap Z Row;                  (* the table, as [cursor] sees it *)
  fsm : gmap (Z * Z) GenStates;        (* MemoryStorage, keyed by (chat, user) *)
  calls : list (Call * bool)           (* outbound calls, oldest first, with
                                          whether each one went through *)
}.

(* ===================================================================== *)
(** * Exceptions and the handler monad *)
(* ===================================================================== *)

Inductive Exc :=
| sqlite3_Error      (* raised by cursor.execute / conn.commit *)
| ValueError         (* int() on a non-numeric argument *)
| OverflowError      (* sqlite3 parameter binding *)
| AttributeError     (* None.strip() *)
| ApiError.          (* Telegram or OpenAI client errors *)

(** The classes named in the source's [except] clauses. *)
Inductive ExcClass := Exception | cls_sqlite3_Error | cls_ValueError.

Definition isinstance (e : Exc) (c : ExcClass) : bool :=
  match c, e with
  | Exception, _ => true
  | cls_sqlite3_Error, sqlite3_Error => true
  | cls_ValueError, ValueError => true
  | _, _ => false
  end.

Inductive Res (A : Type) :=
| Return (a : A)
| Raise (e : Exc).
Arguments Return {A} a.
Arguments Raise {A} e.

Definition M (A : Type) : Type := World → Res A * World.

Definition ret {A} (a : A) : M A := λ w, (Return a, w).

Definition raise {A} (e : Exc) : M A := λ w, (Raise e, w).

Definition bind {A B} (c : M A) (k : A → M B) : M B :=
  λ w, match c w with
       | (Return a, w') => k a w'
       | (Raise e, w') => (Raise e, w')
       end.

(** stdpp's monad notation: [x ← c; k] and [c;; k]. *)
#[global] Instance M_ret : MRet M := @ret.
#[global] Instance M_bind : MBind M := λ A B k c, bind c k.

(** [try: body  except A: h1  except B: h2 ...]: the first clause whose
    class matches handles the exception; an exception raised inside a
    clause is not offered to the others. *)
Fixpoint select_handler {A} (e : Exc) (hs : list (ExcClass * M A)) : option (M A) :=
  match hs with
  | [] => None
  | (c, h) :: hs' => if isinstance e c then Some h else select_handler e hs'
  end.

Definition try_except {A} (body : M A) (hs : list (ExcClass * M A)) : M A :=
  λ w, match body w with
       | (Return a, w') => (Return a, w')
       | (Raise e, w') =>
           match select_handler e hs with
           | Some h => h w'
           | None => (Raise e, w')
           end
       end.

(** [try: body  finally: fin]: [fin] always runs; an exception from [fin]
    replaces the outcome of [body]. *)
Definition try_finally {A} (body : M A) (fin : M unit) : M A :=
  λ w, match body w with
       | (r, w') =>
           match fin w' with
           | (Return _, w'') => (r, w'')
           | (Raise e, w'') => (Raise e, w'')
           end
       end.

(* ===================================================================== *)
(** * Call sites and the environment of one handler run *)
(* ===================================================================== *)

(** Every call in the source that can raise, by function and line. *)
Inductive Site :=
(* ensure_user *)
| ensure_user_execute            (* 122 *)
| ensure_user_commit             (* 127 *)
(* get_user_stats, get_generation_count *)
| get_user_stats_totals          (* 135 *)
| get_user_stats_paid            (* 137 *)
| get_generation_count_execute   (* 147 *)
(* cmd_stats *)
| cmd_stats_denied               (* 175 *)
| cmd_stats_answer               (* 180 *)
(* cmd_list_users *)
| cmd_list_users_denied          (* 192 *)
| cmd_list_users_execute         (* 195 *)
| cmd_list_users_none            (* 198 *)
| cmd_list_users_answer          (* 204 *)
| cmd_list_users_failed          (* 208 *)
(* cmd_broadcast *)
| cmd_broadcast_denied           (* 214 *)
| cmd_broadcast_prompt           (* 216 *)
(* process_broadcast; the sends of line 235 are decided per recipient *)
| process_broadcast_empty        (* 225 *)
| process_broadcast_execute      (* 230 *)
| process_broadcast_channel      (* 244 *)
| process_broadcast_summary      (* 248 *)
| process_broadcast_failed       (* 252 *)
(* cmd_find_user *)
| cmd_find_user_denied           (* 260 *)
| cmd_find_user_usage            (* 264 *)
| cmd_find_user_execute          (* 268 *)
| cmd_find_user_found            (* 271 *)
| cmd_find_user_missing          (* 274 *)
| cmd_find_user_not_a_number     (* 277 *)
| cmd_find_user_failed           (* 281 *)
(* cmd_start *)
| cmd_start_answer               (* 287 *)
(* cmd_admin *)
| cmd_admin_denied               (* 308 *)
| cmd_admin_answer               (* 313 *)
(* cmd_activate_user *)
| cmd_activate_user_denied       (* 325 *)
| cmd_activate_user_usage        (* 329 *)
| cmd_activate_user_execute      (* 334 *)
| cmd_activate_user_commit       (* 335 *)
| cmd_activate_user_done         (* 337 *)
| cmd_activate_user_notify       (* 340 *)
| cmd_activate_user_missing      (* 344 *)
| cmd_activate_user_not_a_number (* 347 *)
| cmd_activate_user_failed       (* 351 *)
(* handle_photo *)
| handle_photo_select            (* 381 *)
| handle_photo_denied            (* 386 *)
| handle_photo_processing        (* 392 *)
| handle_photo_get_file          (* 396 *)
| handle_photo_download          (* 398 *)
| handle_photo_openai            (* 402-415 *)
| handle_photo_result            (* 418 *)
| handle_photo_channel           (* 425 *)
| handle_photo_update            (* 434 *)
| handle_photo_commit            (* 435 *)
| handle_photo_failed            (* 440 *)
| handle_photo_delete.           (* 444 *)

#[global] Instance Site_eq_dec : EqDecision Site.
Proof. solve_decision. Defined.

Record Env := mkEnv {
  (** [datetime.utcnow().isoformat()] at this run (line 120) *)
  now : string;
  (** the calls that raise in this run *)
  raises : Site → bool;
  (** line 235: the recipients whose delivery raises *)
  send_raises : Z → bool;
  (** [response.choices[0].message.content] when the inference call returns *)
  completion : string;
  (** writes of other tasks to the table while the delivery to a recipient
      is awaited (lines 235-237 suspend the broadcast task) *)
  concurrent : Z → gmap Z Row → gmap Z Row
}.

(** ** Primitive actions *)

Definition record_call (c : Call) (ok : bool) (w : World) : World :=
  mkWorld (users w) (fsm w) (calls w ++ [(c, ok)]).

(** An outbound API call: recorded, and raising when the oracle says so. *)
Definition api (ok : bool) (c : Call) : M unit :=
  λ w, (if ok then Return tt else Raise ApiError, record_call c ok w).

(** [cursor.execute] of a writing statement. *)
Definition execute (env : Env) (s : Site) (stmt : gmap Z Row → gmap Z Row) : M unit :=
  λ w, if raises env s then (Raise sqlite3_Error, w)
       else (Return tt, mkWorld (stmt (users w)) (fsm w) (calls w)).

(** [cursor.execute] of a [SELECT] followed by its fetch. *)
Definition query {A} (env : Env) (s : Site) (q : gmap Z Row → A) : M A :=
  λ w, if raises env s then (Raise sqlite3_Error, w) else (Return (q (users w)), w).

(** [conn.commit()]: the connection's own view of the table is already
    updated by [execute]. *)
Definition commit (env : Env) (s : Site) : M unit :=
  λ _w, if raises env s then (Raise sqlite3_Error, _w) else (Return tt, _w).

(** [await message.answer(body)]. *)
Definition answer (env : Env) (s : Site) (message : Message) (body : string) : M unit :=
  api (negb (raises env s)) (send_message (chat_int (chat message)) body).

(** [await state.set_state(s)], [await state.clear()], and the state the
    dispatcher reads for the next event. *)
Definition state_key (message : Message) : Z * Z := (chat message, from_user message).

Definition set_state (message : Message) (s : GenStates) : M unit :=
  λ w, (Return tt, mkWorld (users w) (<[state_key message := s]> (fsm w)) (calls w)).

Definition state_clear (message : Message) : M unit :=
  λ w, (Return tt, mkWorld (users w) (delete (state_key message) (fsm w)) (calls w)).

Definition dialog_state (message : Message) (w : World) : option GenStates :=
  fsm w !! state_key message.

(** ** Message texts *)

Definition nl : string := String (Ascii.ascii_of_nat 10) EmptyString.

Definition MSG_NO_ACCESS : string := "🚫 Нет доступа.".
Definition MSG_NO_ACCESS_COMMAND : string := "🚫 У вас нет доступа к этой команде.".
Definition MSG_LIMIT_EXHAUSTED : string :=
  "🔐 Лимит использований исчерпан. Оформите подписку для продолжения.".
Definition MSG_PROCESSING : string := "⏳ Обрабатываю ваше фото, пожалуйста, подождите...".
Definition MSG_ANALYSIS_FAILED : string :=
  "❌ Ошибка при обработке изображения. Попробуйте ещё раз позже.".
Definition MSG_BROADCAST_EMPTY : string :=
  "⚠️ Текст рассылки не может быть пустым. Попробуйте снова.".
Definition MSG_BROADCAST_FAILED : string := "❌ Произошла ошибка при выполнении рассылки.".
Definition MSG_BROADCAST_PROMPT : string := "✏️ Введите текст рассылки:".
Definition MSG_NO_USERS : string := "❌ Пользователей нет.".
Definition MSG_LIST_FAILED : string :=
  "❌ Произошла ошибка при получении списка пользователей.".
Definition MSG_FIND_USAGE : string := "⚠️ Используйте формат: /find ID".
Definition MSG_NOT_FOUND : string := "❌ Пользователь не найден.".
Definition MSG_NOT_A_NUMBER : string := "❌ ID пользователя должен быть числом.".
Definition MSG_FIND_FAILED : string := "❌ Ошибка при поиске пользователя в базе данных.".
Definition MSG_ACTIVATE_USAGE : string := "⚠️ Используйте формат: /activate user_id".
Definition MSG_ACTIVATE_FAILED : string := "❌ Ошибка при активации подписки.".
Definition MSG_ACTIVATED_NOTICE : string :=
  "🎉 Ваша подписка активирована! Теперь у вас неограниченный доступ.".
Definition MSG_CHANNEL_PHOTO_TAIL : string := " загрузил фото еды. Калории и БЖУ вычислены.".

(** Line 248. *)
Definition broadcast_summary (success failed : nat) : string :=
  "✅ Рассылка завершена" +:+ nl +:+ "Отправлено: " +:+ pretty success +:+ nl +:+
  "Ошибок: " +:+ pretty failed.

(** Lines 180-185. *)
Definition stats_text (total paid active : nat) : string :=
  "📊 Статистика:" +:+ nl +:+
  "👥 Всего пользователей: " +:+ pretty total +:+ nl +:+
  "💸 С подпиской: " +:+ pretty paid +:+ nl +:+
  "📈 Активных генераций: " +:+ pretty active.

(** Lines 313-318; [total_uses or 0]. *)
Definition admin_text (total_users : nat) (total_uses : option Z) (paid_users : nat) : string :=
  "🛠 <b>Админ-панель</b>" +:+ nl +:+ nl +:+
  "👥 Пользователей: " +:+ pretty total_users +:+ nl +:+
  "🔄 Общих использований осталось: " +:+ pretty (default 0%Z total_uses) +:+ nl +:+
  "💸 Купили подписку: " +:+ pretty paid_users +:+ nl +:+ nl +:+
  "✏️ Чтобы активировать подписку пользователю, напиши: /activate ID".

(** Lines 200-202. *)
Definition users_text (rows : list (Z * Row)) : string :=
  foldl (λ acc kr,
           acc +:+ "🆔 " +:+ pretty (fst kr) +:+ " — Осталось: " +:+
           pretty (uses_left (snd kr)) +:+ " — Активен: " +:+
           last_active (snd kr) +:+ nl)
        ("🧾 Последние пользователи:" +:+ nl +:+ nl) rows.

(** Line 271. *)
Definition found_text (target_id uses : Z) : string :=
  "👤 Пользователь " +:+ pretty target_id +:+ " найден. Осталось использований: " +:+
  pretty uses.

(** Lines 337, 344. *)
Definition activated_text (user_id : Z) : string :=
  "✅ Подписка для пользователя " +:+ pretty user_id +:+ " активирована.".
Definition activate_missing_text (user_id : Z) : string :=
  "❌ Пользователь " +:+ pretty user_id +:+ " не найден в базе данных.".

(** Line 418. *)
Definition result_text (content : string) : string := "📊 Ответ:" +:+ nl +:+ content.

(** Lines 423, 427. *)
Definition channel_photo_text (message : Message) : string :=
  "📷 Пользователь " +:+
  match username message with
  | Some u => if bool_decide (u = "") then "ID: " +:+ pretty (from_user message) else "@" +:+ u
  | None => "ID: " +:+ pretty (from_user message)
  end +:+ MSG_CHANNEL_PHOTO_TAIL.

(** Line 244. *)
Definition channel_broadcast_text (body : string) : string := "📢 Новая рассылка: " +:+ body.

(* ===================================================================== *)
(** * The handlers *)
(* ===================================================================== *)

Section Handlers.

(** Configuration read from the environment (lines 32-33, 46-49):
    [CHANNEL_ID] is [None] when unset or empty. *)
Variable ADMIN_ID : Z.
Variable CHANNEL_ID : option string.

(** Python built-ins: [str.strip().split()] and [int(str)], the latter
    raising [ValueError] ([None] here) on a non-numeric argument. *)
Variable py_split : string → list string.
Variable py_int : string → option Z.

(** Lines 114-130. *)
Definition ensure_user (env : Env) (user_id : Z) : M unit :=
  try_except
    (execute env ensure_user_execute (Sql.upsert user_id (now env));;
     commit env ensure_user_commit)
    [(cls_sqlite3_Error, mret tt)].

(** Lines 132-142. *)
Definition get_user_stats (env : Env) : M (nat * option Z * nat) :=
  try_except
    ('(total_users, total_uses) ←
       query env get_user_stats_totals (λ t, (Sql.count_all t, Sql.sum_uses_left t));
     paid_users ← query env get_user_stats_paid (Sql.count_below FREE_USES_LIMIT);
     mret (total_users, total_uses, paid_users))
    [(cls_sqlite3_Error, mret (0, Some 0%Z, 0))].

(** Lines 144-151. *)
Definition get_generation_count (env : Env) : M nat :=
  try_except
    (query env get_generation_count_execute (Sql.count_below FREE_USES_LIMIT))
    [(cls_sqlite3_Error, mret 0)].

Definition is_admin (message : Message) : bool :=
  (from_user message =? ADMIN_ID)%Z.

(** Lines 171-186. *)
Definition cmd_stats (env : Env) (message : Message) : M unit :=
  if negb (is_admin message) then
    answer env cmd_stats_denied message MSG_NO_ACCESS
  else
    '(total, _, paid) ← get_user_stats env;
    active ← get_generation_count env;
    answer env cmd_stats_answer message (stats_text total paid active).

(** Lines 188-208. *)
Definition cmd_list_users (env : Env) (message : Message) : M unit :=
  if negb (is_admin message) then
    answer env cmd_list_users_denied message MSG_NO_ACCESS
  else
    try_except
      (rows ← query env cmd_list_users_execute (Sql.select_recent 20);
       match rows with
       | [] => answer env cmd_list_users_none message MSG_NO_USERS
       | _ => answer env cmd_list_users_answer message (users_text rows)
       end)
      [(cls_sqlite3_Error, answer env cmd_list_users_failed message MSG_LIST_FAILED)].

(** Lines 210-218. *)
Definition cmd_broadcast (env : Env) (message : Message) : M unit :=
  if negb (is_admin message) then
    answer env cmd_broadcast_denied message MSG_NO_ACCESS_COMMAND
  else
    answer env cmd_broadcast_prompt message MSG_BROADCAST_PROMPT;;
    set_state message await_broadcast.

(** Other tasks run while the broadcast task is suspended. *)
Definition interleave (env : Env) (user : Z) : M unit :=
  λ w, (Return tt, mkWorld (concurrent env user (users w)) (fsm w) (calls w)).

(** Lines 233-240: the loop over the fetched ids, with its two counters. *)
Fixpoint broadcast_loop (env : Env) (body : string) (targets : list Z)
    (success failed : nat) : M (nat * nat) :=
  match targets with
  | [] => mret (success, failed)
  | user :: rest =>
      '(success', failed') ←
        try_except
          (api (negb (send_raises env user)) (send_message (chat_int user) body);;
           mret (S success, failed))
          [(Exception, mret (success, S failed))];
      interleave env user;;
      broadcast_loop env body rest success' failed'
  end.

(** Python truthiness of [message.text]. *)
Definition nonempty_text (message : Message) : option string :=
  match text message with
  | Some (String a s) => Some (String a s)
  | _ => None
  end.

(** Lines 220-254. *)
Definition process_broadcast (env : Env) (message : Message) : M unit :=
  match nonempty_text message with
  | None =>
      answer env process_broadcast_empty message MSG_BROADCAST_EMPTY;;
      state_clear message
  | Some body =>
      try_finally
        (try_except
           (targets ← query env process_broadcast_execute Sql.select_user_ids;
            '(success, failed) ← broadcast_loop env body targets 0 0;
            match CHANNEL_ID with
            | Some channel =>
                try_except
                  (api (negb (raises env process_broadcast_channel))
                       (send_message (chat_name channel) (channel_broadcast_text body)))
                  [(Exception, mret tt)]
            | None => mret tt
            end;;
            answer env process_broadcast_summary message (broadcast_summary success failed))
           [(cls_sqlite3_Error,
             answer env process_broadcast_failed message MSG_BROADCAST_FAILED)])
        (state_clear message)
  end.

(** [message.text.strip().split()] (lines 262, 327). *)
Definition parts_of (message : Message) : M (list string) :=
  match text message with
  | Some t => mret (py_split t)
  | None => raise AttributeError
  end.

(** [int(parts[1])]. *)
Definition int (s : string) : M Z :=
  match py_int s with
  | Some z => mret z
  | None => raise ValueError
  end.

(** Binding a Python int to a statement parameter. *)
Definition bind_param (z : Z) : M unit :=
  if Sql.fits_int64 z then mret tt else raise OverflowError.

(** Lines 256-281. *)
Definition cmd_find_user (env : Env) (message : Message) : M unit :=
  if negb (is_admin message) then
    answer env cmd_find_user_denied message MSG_NO_ACCESS_COMMAND
  else
    parts ← parts_of message;
    match parts with
    | [_; arg] =>
        try_except
          (target_id ← int arg;
           bind_param target_id;;
           row ← query env cmd_find_user_execute (Sql.select_uses_left target_id);
           match row with
           | Some uses =>
               answer env cmd_find_user_found message (found_text target_id uses)
           | None => answer env cmd_find_user_missing message MSG_NOT_FOUND
           end)
          [(cls_ValueError, answer env cmd_find_user_not_a_number message MSG_NOT_A_NUMBER);
           (cls_sqlite3_Error, answer env cmd_find_user_failed message MSG_FIND_FAILED)]
    | _ => answer env cmd_find_user_usage message MSG_FIND_USAGE
    end.


(** Lines 304-319. *)
Definition cmd_admin (env : Env) (message : Message) : M unit :=
  if negb (is_admin message) then
    answer env cmd_admin_denied message MSG_NO_ACCESS_COMMAND
  else
    '(total_users, total_uses, paid_users) ← get_user_stats env;
    answer env cmd_admin_answer message (admin_text total_users total_uses paid_users).

(** [cursor.rowcount] of the last [UPDATE]. *)
Definition rowcount (user_id : Z) : M nat :=
  λ w, (Return (Sql.rowcount user_id (users w)), w).

(** Lines 321-351. *)
Definition cmd_activate_user (env : Env) (message : Message) : M unit :=
  if negb (is_admin message) then
    answer env cmd_activate_user_denied message MSG_NO_ACCESS
  else
    parts ← parts_of message;
    match parts with
    | [_; user_id_str] =>
        try_except
          (user_id ← int user_id_str;
           bind_param user_id;;
           execute env cmd_activate_user_execute (Sql.activate user_id);;
           commit env cmd_activate_user_commit;;
           affected ← rowcount user_id;
           if (0 <? affected)%nat then
             answer env cmd_activate_user_done message (activated_text user_id);;
             try_except
               (api (negb (raises env cmd_activate_user_notify))
                    (send_message (chat_int user_id) MSG_ACTIVATED_NOTICE))
               [(Exception, mret tt)]
           else
             answer env cmd_activate_user_missing message (activate_missing_text user_id))
          [(cls_ValueError,
            answer env cmd_activate_user_not_a_number message MSG_NOT_A_NUMBER);
           (cls_sqlite3_Error,
            answer env cmd_activate_user_failed message MSG_ACTIVATE_FAILED)]
    | _ => answer env cmd_activate_user_usage message MSG_ACTIVATE_USAGE
    end.

(** Lines 394-436: the body of the [try] in [handle_photo]. *)
Definition analyse_photo (env : Env) (message : Message) : M unit :=
  api (negb (raises env handle_photo_get_file)) get_file;;
  api (negb (raises env handle_photo_download)) download_file;;
  api (negb (raises env handle_photo_openai)) chat_completions_create;;
  answer env handle_photo_result message (result_text (completion env));;
  match CHANNEL_ID with
  | Some channel =>
      try_except
        (api (negb (raises env handle_photo_channel))
             (send_message (chat_name channel) (channel_photo_text message)))
        [(Exception, mret tt)]
  | None => mret tt
  end;;
  execute env handle_photo_update (Sql.decrement (from_user message));;
  commit env handle_photo_commit.

(** Lines 375-447. *)
Definition handle_photo (env : Env) (message : Message) : M unit :=
  let user_id := from_user message in
  ensure_user env user_id;;
  row ← query env handle_photo_select (Sql.select_uses_left user_id);
  let remaining := default 0%Z row in
  if (remaining <=? 0)%Z then
    answer env handle_photo_denied message MSG_LIMIT_EXHAUSTED;;
    state_clear message
  else
    answer env handle_photo_processing message MSG_PROCESSING;;
    try_finally
      (try_except
         (analyse_photo env message)
         [(Exception, answer env handle_photo_failed message MSG_ANALYSIS_FAILED)])
      (try_except
         (api (negb (raises env handle_photo_delete))
              (delete_message (chat_int (chat message))))
         [(Exception, mret tt)];;
       state_clear message).

End Handlers.

(* ===================================================================== *)
(** * Observations on runs *)
(* ===================================================================== *)


(** What the gate reads at lines 381-383: [uses_left] of the sender's row
    once [ensure_user] has run, 0 when there is no row. *)
Definition stored_uses_left (env : Env) (message : Message) (w : World) : Z :=
  default 0%Z
    (Sql.select_uses_left (from_user message)
       (users (ensure_user env (from_user message) w).2)).

(** The oracle lets the analysis obtain the image, get the inference result
    and deliver it (lines 396-418). *)
Definition delivers (env : Env) : bool :=
  negb (raises env handle_photo_get_file) &&
  negb (raises env handle_photo_download) &&
  negb (raises env handle_photo_openai) &&
  negb (raises env handle_photo_result).

(** The run reaches line 434 and the [UPDATE] goes through. *)
Definition consumes (env : Env) (message : Message) (w : World) : bool :=
  negb (raises env handle_photo_select) &&
  (0 <? stored_uses_left env message w)%Z &&
  negb (raises env handle_photo_processing) &&
  delivers env &&
  negb (raises env handle_photo_update).

(** ** The gate's decision, as the user observes it *)

Definition denial_call (env : Env) (message : Message) : Call * bool :=
  (send_message (chat_int (chat message)) MSG_LIMIT_EXHAUSTED,
   negb (raises env handle_photo_denied)).

Definition processing_call (env : Env) (message : Message) : Call * bool :=
  (send_message (chat_int (chat message)) MSG_PROCESSING,
   negb (raises env handle_photo_processing)).

(** Denied: the handler's only outbound call is the upgrade message. *)
Definition Denied (CHANNEL_ID : option string) (env : Env) (message : Message) (w : World) : Prop :=
  calls (handle_photo CHANNEL_ID env message w).2 = calls w ++ [denial_call env message].

(** Allowed: the handler goes on to the analysis, announcing it first. *)
Definition Allowed (CHANNEL_ID : option string) (env : Env) (message : Message) (w : World) : Prop :=
  ∃ rest, calls (handle_photo CHANNEL_ID env message w).2 =
            calls w ++ processing_call env message :: rest.

(** The whole analysis goes through: the gate's read, the announcement, the
    inference call, the delivery of its result and the decrement. *)
Definition succeeds (env : Env) : bool :=
  negb (raises env handle_photo_select) &&
  negb (raises env handle_photo_processing) &&
  delivers env &&
  negb (raises env handle_photo_update) &&
  negb (raises env handle_photo_commit).

Fixpoint photo_events (CHANNEL_ID : option string) (envs : list Env)
    (message : Message) (w : World) : World :=
  match envs with
  | [] => w
  | env :: rest =>
      photo_events CHANNEL_ID rest message (handle_photo CHANNEL_ID env message w).2
  end.

Definition successes (envs : list Env) : nat :=
  length (filter (λ env, succeeds env = true) envs).

(** The attempts of line 235, one per target, in order. *)
Definition deliveries (env : Env) (body : string) (targets : list Z) : list (Call * bool) :=
  map (λ user, (send_message (chat_int user) body, negb (send_raises env user))) targets.

Definition failures (env : Env) (targets : list Z) : nat :=
  length (filter (λ user, send_raises env user = true) targets).

(** The optional channel notice of lines 242-246. *)
Definition channel_notice (CHANNEL_ID : option string) (env : Env) (body : string) :
    list (Call * bool) :=
  match CHANNEL_ID with
  | Some channel =>
      [(send_message (chat_name channel) (channel_broadcast_text body),
        negb (raises env process_broadcast_channel))]
  | None => []
  end.

Definition summary_call (env : Env) (message : Message) (success failed : nat) :
    Call * bool :=
  (send_message (chat_int (chat message)) (broadcast_summary success failed),
   negb (raises env process_broadcast_summary)).

(** The privileged commands and the handlers registered for them
    (lines 171, 188, 210, 256, 304, 321). *)
Inductive Privileged :=
| slash_stats | slash_users | slash_find | slash_activate | slash_broadcast | slash_admin.

Definition privileged_handler (ADMIN_ID : Z) (py_split : string → list string)
    (py_int : string → option Z) (c : Privileged) : Env → Message → M unit :=
  match c with
  | slash_stats => cmd_stats ADMIN_ID
  | slash_users => cmd_list_users ADMIN_ID
  | slash_find => cmd_find_user ADMIN_ID py_split py_int
  | slash_activate => cmd_activate_user ADMIN_ID py_split py_int
  | slash_broadcast => cmd_broadcast ADMIN_ID
  | slash_admin => cmd_admin ADMIN_ID
  end.

(** The text each of them answers to anybody else, and the line that sends
    it. *)
Definition denial_text (c : Privileged) : string :=
  match c with
  | slash_stats | slash_users | slash_activate => MSG_NO_ACCESS
  | slash_find | slash_broadcast | slash_admin => MSG_NO_ACCESS_COMMAND
  end.

Definition denial_site (c : Privileged) : Site :=
  match c with
  | slash_stats => cmd_stats_denied
  | slash_users => cmd_list_users_denied
  | slash_find => cmd_find_user_denied
  | slash_activate => cmd_activate_user_denied
  | slash_broadcast => cmd_broadcast_denied
  | slash_admin => cmd_admin_denied
  end.

(** The accounts below the free-tier default. *)
Definition below_default (t : gmap Z Row) : gmap Z Row :=
  filter (λ kr : Z * Row, (uses_left kr.2 < FREE_USES_LIMIT)%Z) t.

(* ===================================================================== *)
(** * Sample runs *)
(* ===================================================================== *)

(** The default of line 32. *)
Definition sample_admin : Z := 1082828397.

(** A run in which nothing raises. *)
Definition env_ok : Env :=
  mkEnv "2024-05-02T10:00:00" (λ _, false) (λ _, false) "Pizza, 285 kcal" (λ _ t, t).

(** A run in which the inference call raises. *)
Definition env_no_inference : Env :=
  mkEnv "2024-05-02T11:00:00"
    (λ s, bool_decide (s = handle_photo_openai)) (λ _, false) "" (λ _ t, t).

(** A run in which every statement on the store raises. *)
Definition store_site (s : Site) : bool :=
  match s with
  | ensure_user_execute | ensure_user_commit
  | get_user_stats_totals | get_user_stats_paid | get_generation_count_execute
  | cmd_list_users_execute | process_broadcast_execute | cmd_find_user_execute
  | cmd_activate_user_execute | cmd_activate_user_commit
  | handle_photo_select | handle_photo_update | handle_photo_commit => true
  | _ => false
  end.

Definition env_store_down : Env :=
  mkEnv "2024-05-02T12:00:00" store_site (λ _, false) "" (λ _ t, t).

(** A broadcast run in which the delivery to user 8 raises and, while the
    delivery to user 7 is awaited, another task registers user 99. *)
Definition env_broadcast : Env :=
  mkEnv "2024-05-02T13:00:00" (λ _, false) (λ user, bool_decide (user = 8%Z)) ""
    (λ user t, if bool_decide (user = 7%Z) then Sql.upsert 99 "2024-05-02T13:00:01" t else t).

Definition world_of (rows : list (Z * Row)) : World := mkWorld (list_to_map rows) ∅ [].

Definition world_empty : World := world_of [].
Definition world_new_user : World := world_of [(7%Z, mkRow 10 "2024-05-01T09:00:00")].
Definition world_last_use : World := world_of [(7%Z, mkRow 1 "2024-05-01T09:00:00")].
Definition world_exhausted : World := world_of [(7%Z, mkRow 0 "2024-05-01T09:00:00")].
Definition world_used : World := world_of [(7%Z, mkRow 5 "2024-05-01T09:00:00")].
Definition world_three : World :=
  world_of [(7%Z, mkRow 10 "2024-05-01T09:00:00");
            (8%Z, mkRow 3 "2024-05-01T09:30:00");
            (9%Z, mkRow 999 "2024-05-01T09:45:00")].

Definition photo_from_7 : Message := mkMessage 7 7 None (Some "alice").
Definition awaiting (message : Message) (s : GenStates) (w : World) : World :=
  mkWorld (users w) (<[state_key message := s]> (fsm w)) (calls w).

Definition sample_split (s : string) : list string :=
  if bool_decide (s = "/activate 7") then ["/activate"; "7"]
  else if bool_decide (s = "/find 7") then ["/find"; "7"]
  else [s].
Definition sample_int (s : string) : option Z :=
  if bool_decide (s = "7") then Some 7%Z else None.

Definition admin_says (t : string) : Message :=
  mkMessage sample_admin sample_admin (Some t) None.
Definition stranger_says (t : string) : Message := mkMessage 7 7 (Some t) None.

(** ** Three sentences of the specification, as it words them *)

(** The count of subscribers includes every account at the sentinel. *)
Definition sentinel_holders (t : gmap Z Row) : nat :=
  size (filter (λ kr : Z * Row, uses_left kr.2 = UNLIMITED_SENTINEL) t).

Definition counts_every_sentinel_holder (env : Env) (w : World) : Prop :=
  ∀ total uses paid,
    (get_user_stats env w).1 = Return (total, uses, paid) →
    sentinel_holders (users w) ≤ paid.



(* ===================================================================== *)
(** * The handlers that answer with a picture *)
(* ===================================================================== *)

(** Line 37. *)
Definition IMG_DIR : string := "img".

(** [os.path.join] on two components (POSIX): an absolute second component
    replaces the first. *)
Definition slash : Ascii.ascii := Ascii.ascii_of_nat 47.

Definition ends_with_slash (s : string) : bool :=
  match String.length s with
  | O => true
  | S n => bool_decide (String.get n s = Some slash)
  end.

Definition path_join (dir file : string) : string :=
  if bool_decide (String.get 0 file = Some slash) then file
  else if ends_with_slash dir then dir +:+ file
  else dir +:+ "/" +:+ file.

(** [bot.send_photo(chat_id, photo=FSInputFile(path), caption=...)]
    (line 160); [parse_mode] only affects rendering and is left out, as for
    the text messages. *)
Record Photo := mkPhoto {
  photo_chat : Z;
  photo_path : string;
  photo_caption : string
}.

(** The world together with the pictures sent, oldest first, with whether
    each upload went through. *)
Record Screen := mkScreen {
  world : World;
  photos : list (Photo * bool)
}.

Definition MP (A : Type) : Type := Screen → Res A * Screen.

#[global] Instance MP_ret : MRet MP := λ A a p, (Return a, p).
#[global] Instance MP_bind : MBind MP :=
  λ A B k c p, match c p with
               | (Return a, p') => k a p'
               | (Raise e, p') => (Raise e, p')
               end.

(** A computation on the world alone. *)
Definition lift {A} (c : M A) : MP A :=
  λ p, match c (world p) with (r, w') => (r, mkScreen w' (photos p)) end.

(** [try: body  except Exception: handler] on this state. *)
Definition try_except_all {A} (body handler : MP A) : MP A :=
  λ p, match body p with
       | (Return a, p') => (Return a, p')
       | (Raise _, p') => handler p'
       end.

(** The calls of these handlers that can raise, and what the run finds on
    disk. *)
Inductive AssetSite :=
| send_photo_or_text_photo       (* 160 *)
| send_photo_or_text_fallback    (* 164 *)
| send_photo_or_text_missing     (* 167 *)
| cmd_profile_select.            (* 297 *)

#[global] Instance AssetSite_eq_dec : EqDecision AssetSite.
Proof. solve_decision. Defined.

Record AssetEnv := mkAssetEnv {
  (** the oracle of the calls shared with the other handlers *)
  base : Env;
  (** [os.path.exists] *)
  path_exists : string → bool;
  asset_raises : AssetSite → bool
}.

Definition MSG_IMAGE_FAILED : string := "🖼️ Не удалось загрузить изображение. ".
Definition MSG_IMAGE_MISSING : string := "🖼️ Изображение не найдено. ".

Definition dq : string := String (Ascii.ascii_of_nat 34) EmptyString.

Definition CAPTION_BUY : string :=
  "💳 Подписка стоит $2.5 через CryptoBot:" +:+
  nl +:+
  nl +:+
  "<a href='https://t.me/send?start=IVncR7b5DNSe'>🔗 Оплатить</a>" +:+
  nl +:+
  nl +:+
  "После оплаты администратор активирует подписку вручную." +:+
  nl +:+
  "Если вы оплатили, сообщите в <a href='https://t.me/calloritpay'>канал поддержки</a>.".


Definition CAPTION_HELP : string :=
  "ℹ️ <b>Как пользоваться ботом</b>" +:+
  nl +:+
  nl +:+
  "1. Нажмите " +:+
  dq +:+
  "Узнать калории по фото" +:+
  dq +:+
  nl +:+
  "2. Отправьте фото еды" +:+
  nl +:+
  "3. Получите приблизительную калорийность блюда и БЖУ." +:+
  nl +:+
  nl +:+
  "🔁 Бесплатно доступно 10 использований. Подписка откроет неограниченный доступ.".

Definition CAPTION_PROGRAMS : string :=
  "🏋️‍♀️ <b>Полезные программы:</b>" +:+
  nl +:+
  nl +:+
  "- <a href='https://t.me/Itmarket1_bot?start=good_82171'>Авторские программы питания</a>" +:+
  nl +:+
  "- <a href='https://t.me/Itmarket1_bot?start=good_82170'>Спорт без инвентаря (курс)</a>".

Definition CAPTION_IQ : string :=
  "🧠 Пройди наш IQ-тест и узнай свой результат!" +:+
  nl +:+
  nl +:+
  "<a href='https://t.me/iqmanager1_bot'>🔗 Перейти к IQ-тесту</a>".


(** [await bot.send_photo(...)]. *)
Definition send_photo (ok : bool) (photo : Photo) : MP unit :=
  λ p, (if ok then Return tt else Raise ApiError,
        mkScreen (world p) (photos p ++ [(photo, ok)])).

(** Lines 153-167. *)
Definition send_photo_or_text (env : AssetEnv) (chat_id : Z) (img_path caption : string) :
    MP unit :=
  let full_img_path := path_join IMG_DIR img_path in
  if path_exists env full_img_path then
    try_except_all
      (send_photo (negb (asset_raises env send_photo_or_text_photo))
         (mkPhoto chat_id full_img_path caption))
      (lift (api (negb (asset_raises env send_photo_or_text_fallback))
               (send_message (chat_int chat_id) (MSG_IMAGE_FAILED +:+ caption))))
  else
    lift (api (negb (asset_raises env send_photo_or_text_missing))
            (send_message (chat_int chat_id) (MSG_IMAGE_MISSING +:+ caption))).

(** [cursor.execute] of the unguarded [SELECT] of line 297, with its
    fetch. *)
Definition profile_query (env : AssetEnv) (user_id : Z) : M (option Z) :=
  λ w, if asset_raises env cmd_profile_select then (Raise sqlite3_Error, w)
       else (Return (Sql.select_uses_left user_id (users w)), w).


(** Lines 353-364. *)
Definition cmd_buy (env : AssetEnv) (message : Message) : MP unit :=
  send_photo_or_text env (chat message) "pay.png" CAPTION_BUY.



(** Lines 449-460. *)
Definition cmd_help (env : AssetEnv) (message : Message) : MP unit :=
  send_photo_or_text env (chat message) "help.png" CAPTION_HELP.

(** Lines 462-471. *)
Definition send_training_programs (env : AssetEnv) (message : Message) : MP unit :=
  send_photo_or_text env (chat message) "programm.png" CAPTION_PROGRAMS.

(** Lines 473-486. *)
Definition cmd_iq_test (env : AssetEnv) (message : Message) : MP unit :=
  send_photo_or_text env (chat message) "iq.png" CAPTION_IQ.

(** The handlers that only show a caption. *)
Inductive InfoCommand := info_buy | info_help | info_programs | info_iq.

Definition info_handler (c : InfoCommand) : AssetEnv → Message → MP unit :=
  match c with
  | info_buy => cmd_buy
  | info_help => cmd_help
  | info_programs => send_training_programs
  | info_iq => cmd_iq_test
  end.

Definition info_image (c : InfoCommand) : string :=
  match c with
  | info_buy => "pay.png"
  | info_help => "help.png"
  | info_programs => "programm.png"
  | info_iq => "iq.png"
  end.

Definition info_caption (c : InfoCommand) : string :=
  match c with
  | info_buy => CAPTION_BUY
  | info_help => CAPTION_HELP
  | info_programs => CAPTION_PROGRAMS
  | info_iq => CAPTION_IQ
  end.

(** What one call of [send_photo_or_text] adds when the caption reaches the
    chat: the picture with the caption and no text, or one text that
    carries the caption behind one of the two notices. *)
Definition shown (chat_id : Z) (caption : string) (before after : Screen) : Prop :=
  (∃ path, photos after = photos before ++ [(mkPhoto chat_id path caption, true)] ∧
           calls (world after) = calls (world before)) ∨
  (∃ notice, (notice = MSG_IMAGE_FAILED ∨ notice = MSG_IMAGE_MISSING) ∧
             calls (world after) =
               calls (world before) ++
               [(send_message (chat_int chat_id) (notice +:+ caption), true)]).

(** Nothing went through: every entry added to either log is a failed
    attempt. *)
Definition nothing_shown (before after : Screen) : Prop :=
  (∃ failed, photos after = photos before ++ failed ∧ Forall (λ x, x.2 = false) failed) ∧
  (∃ failed, calls (world after) = calls (world before) ++ failed ∧
             Forall (λ x, x.2 = false) failed).

(** ** Further sample runs *)

Definition screen_of (w : World) : Screen := mkScreen w [].


(** No picture is on disk. *)
Definition assets_missing : AssetEnv := mkAssetEnv env_ok (λ _, false) (λ _, false).

(** The picture is on disk but its upload raises. *)
Definition assets_upload_fails : AssetEnv :=
  mkAssetEnv env_ok (λ _, true) (λ s, bool_decide (s = send_photo_or_text_photo)).

(** The delivery of the processing notice's retraction raises, and so does
    the inference call. *)
Definition env_no_retraction : Env :=
  mkEnv "2024-05-02T14:00:00"
    (λ s, bool_decide (s = handle_photo_openai ∨ s = handle_photo_delete))
    (λ _, false) "" (λ _ t, t).

(** The notification of the activated user raises. *)
Definition env_no_notice : Env :=
  mkEnv "2024-05-02T15:00:00" (λ s, bool_decide (s = cmd_activate_user_notify))
    (λ _, false) "" (λ _ t, t).

Definition world_many : World :=
  world_of (map (λ n : nat, (Z.of_nat n, mkRow 10 ("2024-05-01T09:" +:+ pretty (10 + n))))
              (seq 1 25)).


(** Four accounts with the same [last_active] and a later one. *)
Definition world_ties : World :=
  world_of [(1%Z, mkRow 10 "2024-05-01T09:00:00");
            ((-2)%Z, mkRow 10 "2024-05-01T09:00:00");
            (7%Z, mkRow 0 "2024-05-01T09:00:00");
            (8%Z, mkRow 999 "2024-05-01T09:00:00");
            (3%Z, mkRow 4 "2024-05-01T10:00:00")].

(** ** [handle_photo] in its two stretches

    The handler is a coroutine.  From its start to the first [await] that
    follows the gate (line 386 or 392) it runs without interruption; from
    there to the decrement of line 434 it awaits several times, and the
    handler of another event, of the same user too, may run in between. *)

(** Lines 378-392: registration, the gate and its answer.  The result says
    whether the event was allowed. *)
Definition photo_gate (env : Env) (message : Message) : M bool :=
  let user_id := from_user message in
  ensure_user env user_id;;
  row ← query env handle_photo_select (Sql.select_uses_left user_id);
  let remaining := default 0%Z row in
  if (remaining <=? 0)%Z then
    answer env handle_photo_denied message MSG_LIMIT_EXHAUSTED;;
    state_clear message;;
    mret false
  else
    answer env handle_photo_processing message MSG_PROCESSING;;
    mret true.

(** Lines 394-447: the [try ... except ... finally] of an allowed event. *)
Definition photo_rest (CHANNEL_ID : option string) (env : Env) (message : Message) :
    M unit :=
  try_finally
    (try_except
       (analyse_photo CHANNEL_ID env message)
       [(Exception, answer env handle_photo_failed message MSG_ANALYSIS_FAILED)])
    (try_except
       (api (negb (raises env handle_photo_delete))
            (delete_message (chat_int (chat message))))
       [(Exception, mret tt)];;
     state_clear message).

(** The answers the two state-specific handlers send before their [try]
    do not go through (the Telegram API raises). *)
Definition env_no_reply : Env :=
  mkEnv "2024-05-02T17:00:00"
    (λ s, bool_decide (s = handle_photo_denied ∨ s = handle_photo_processing ∨
                       s = process_broadcast_empty))
    (λ _, false) "" (λ _ t, t).

(** A splitter and a parser that also know a non-numeric argument. *)
Definition sample_words (s : string) : list string :=
  if bool_decide (s = "/activate abc") then ["/activate"; "abc"]
  else if bool_decide (s = "/find abc") then ["/find"; "abc"]
  else if bool_decide (s = "/find 9") then ["/find"; "9"]
  else sample_split s.

Definition sample_number (s : string) : option Z :=
  if bool_decide (s = "9") then Some 9%Z else sample_int s.

(* ===================================================================== *)
(** * Running the monad *)

(* ===================================================================== *)

(** The texts are compared, never computed with, in the proofs below. *)
Arguments result_text : simpl never.
Arguments channel_photo_text : simpl never.
Arguments channel_broadcast_text : simpl never.
Arguments broadcast_summary : simpl never.
Arguments stats_text : simpl never.
Arguments admin_text : simpl never.
Arguments users_text : simpl never.
Arguments found_text : simpl never.
Arguments activated_text : simpl never.
Arguments activate_missing_text : simpl never.

Ltac run_monad :=
  unfold answer, api, execute, query, commit, set_state, state_clear, record_call,
    try_finally, try_except, mbind, M_bind, bind, mret, M_ret, ret, raise in *.

(** Split on the next oracle lookup in the goal. *)
Ltac oracle :=
  match goal with
  | |- context [raises ?env ?s] =>
      let E := fresh "E" in destruct (raises env s) eqn:E; simpl
  end.

(* ===================================================================== *)
(** * The store statements *)
(* ===================================================================== *)

Lemma upsert_lookup_eq uid now (t : gmap Z Row) :
  Sql.upsert uid now t !! uid =
    Some (mkRow (default FREE_USES_LIMIT (uses_left <$> t !! uid)) now).
Proof.
  unfold Sql.upsert. destruct (t !! uid) as [r|] eqn:E; simpl;
    by rewrite lookup_insert_eq.
Qed.

Lemma upsert_lookup_ne uid other now (t : gmap Z Row) :
  other ≠ uid → Sql.upsert uid now t !! other = t !! other.
Proof.
  intros Hne. unfold Sql.upsert.
  destruct (t !! uid); by rewrite lookup_insert_ne.
Qed.



Lemma upsert_keeps_uses_left uid now (t : gmap Z Row) r other :
  t !! other = Some r →
  uses_left <$> Sql.upsert uid now t !! other = Some (uses_left r).
Proof.
  intros Hr. destruct (decide (other = uid)) as [->|Hne].
  - rewrite upsert_lookup_eq, Hr. done.
  - rewrite upsert_lookup_ne, Hr by done. done.
Qed.

Lemma decrement_lookup_eq uid (t : gmap Z Row) :
  Sql.decrement uid t !! uid =
    (λ r, mkRow (uses_left r - 1) (last_active r)) <$> t !! uid.
Proof. unfold Sql.decrement. by rewrite lookup_alter_eq. Qed.

Lemma decrement_lookup_ne uid other (t : gmap Z Row) :
  other ≠ uid → Sql.decrement uid t !! other = t !! other.
Proof. intros Hne. unfold Sql.decrement. by rewrite lookup_alter_ne. Qed.

Lemma activate_lookup_eq uid (t : gmap Z Row) :
  Sql.activate uid t !! uid =
    (λ r, mkRow UNLIMITED_SENTINEL (last_active r)) <$> t !! uid.
Proof. unfold Sql.activate. by rewrite lookup_alter_eq. Qed.

(* ===================================================================== *)
(** * [ensure_user] *)
(* ===================================================================== *)

(** [ensure_user] never raises: the statement either goes through or the
    error is caught at line 129 and the table is as before. *)
Lemma ensure_user_run env uid w :
  ensure_user env uid w =
    (Return tt,
     if raises env ensure_user_execute then w
     else mkWorld (Sql.upsert uid (now env) (users w)) (fsm w) (calls w)).
Proof.
  unfold ensure_user. run_monad. simpl.
  oracle; [done|]. oracle; done.
Qed.

Lemma ensure_user_keeps_uses_left env uid w other r :
  users w !! other = Some r →
  uses_left <$> users (ensure_user env uid w).2 !! other = Some (uses_left r).
Proof.
  intros Hr. rewrite ensure_user_run. simpl.
  destruct (raises env ensure_user_execute); simpl.
  - by rewrite Hr.
  - by apply upsert_keeps_uses_left.
Qed.


(* ===================================================================== *)
(** * [handle_photo]: the quota gate and the analysis *)
(* ===================================================================== *)

Ltac after_ensure w1 :=
  unfold handle_photo, analyse_photo, consumes, delivers, stored_uses_left;
  run_monad; rewrite ?ensure_user_run; simpl;
  match goal with
  | |- context [if raises ?env ensure_user_execute then ?a else ?b] =>
      generalize (if raises env ensure_user_execute then a else b); intros w1
  end.

Lemma handle_photo_table CHANNEL_ID env message w :
  users (handle_photo CHANNEL_ID env message w).2 =
    let t1 := users (ensure_user env (from_user message) w).2 in
    if consumes env message w then Sql.decrement (from_user message) t1 else t1.
Proof.
  after_ensure w1.
  oracle; [done|].
  destruct (default 0%Z _ <=? 0)%Z eqn:Hgate; simpl.
  - assert ((0 <? default 0 (Sql.select_uses_left (from_user message) (users w1)))%Z = false)
      as -> by lia.
    simpl. oracle; done.
  - assert ((0 <? default 0 (Sql.select_uses_left (from_user message) (users w1)))%Z = true)
      as -> by lia.
    simpl. oracle; [done|].
    destruct CHANNEL_ID; repeat (oracle; try done).
Qed.

(** The row the gate reads, when the sender already has one. *)
Lemma stored_uses_left_present env message w r :
  users w !! from_user message = Some r →
  stored_uses_left env message w = uses_left r.
Proof.
  intros Hr. unfold stored_uses_left, Sql.select_uses_left.
  by rewrite (ensure_user_keeps_uses_left _ _ _ _ _ Hr).
Qed.

(** The sender's [uses_left] after the handler: one less when the run
    consumes, as read by the gate otherwise. *)
Lemma handle_photo_uses_left CHANNEL_ID env message w r :
  users w !! from_user message = Some r →
  uses_left <$> users (handle_photo CHANNEL_ID env message w).2 !! from_user message =
    Some (if consumes env message w then uses_left r - 1 else uses_left r)%Z.
Proof.
  intros Hr. rewrite handle_photo_table. simpl.
  pose proof (ensure_user_keeps_uses_left env (from_user message) w _ _ Hr) as H1.
  destruct (consumes env message w).
  - rewrite decrement_lookup_eq.
    destruct (users (ensure_user env (from_user message) w).2 !! from_user message)
      as [r1|]; simpl in *; [|done].
    by injection H1 as ->.
  - done.
Qed.

(** Rows of other users are not touched by the handling of a photo. *)
Lemma handle_photo_other_rows CHANNEL_ID env message w other :
  other ≠ from_user message →
  users (handle_photo CHANNEL_ID env message w).2 !! other = users w !! other.
Proof.
  intros Hne. rewrite handle_photo_table. simpl.
  assert (users (ensure_user env (from_user message) w).2 !! other = users w !! other) as H1.
  { rewrite ensure_user_run. simpl.
    destruct (raises env ensure_user_execute); simpl; [done|].
    by apply upsert_lookup_ne. }
  destruct (consumes env message w); [rewrite decrement_lookup_ne by done|]; done.
Qed.

(** When the run is past the gate and the analysis does not deliver, the
    [except] clause of line 438 answers with the generic failure text. *)
Lemma handle_photo_failure_answer CHANNEL_ID env message w :
  raises env handle_photo_select = false →
  (0 < stored_uses_left env message w)%Z →
  raises env handle_photo_processing = false →
  delivers env = false →
  (send_message (chat_int (chat message)) MSG_ANALYSIS_FAILED,
   negb (raises env handle_photo_failed))
    ∈ calls (handle_photo CHANNEL_ID env message w).2.
Proof.
  revert w. intros w. after_ensure w1. intros Esel Hpos Eproc Hdel.
  rewrite Esel. simpl.
  assert ((default 0 (Sql.select_uses_left (from_user message) (users w1)) <=? 0)%Z = false)
    as -> by lia.
  rewrite Eproc in *. simpl.
  destruct (raises env handle_photo_get_file) eqn:E1; simpl in *.
  { repeat (oracle; try set_solver). }
  destruct (raises env handle_photo_download) eqn:E2; simpl in *.
  { repeat (oracle; try set_solver). }
  destruct (raises env handle_photo_openai) eqn:E3; simpl in *.
  { repeat (oracle; try set_solver). }
  destruct (raises env handle_photo_result) eqn:E4; simpl in *; [|done].
  repeat (oracle; try set_solver).
Qed.

Ltac split_ensure :=
  unfold handle_photo, analyse_photo, consumes, delivers, stored_uses_left;
  run_monad; rewrite ?ensure_user_run; simpl;
  match goal with
  | |- context [raises ?env ensure_user_execute] =>
      destruct (raises env ensure_user_execute); simpl
  end.

Lemma handle_photo_denied_run CHANNEL_ID env message w :
  raises env handle_photo_select = false →
  (stored_uses_left env message w <= 0)%Z →
  handle_photo CHANNEL_ID env message w =
    let w1 := (ensure_user env (from_user message) w).2 in
    if raises env handle_photo_denied then
      (Raise ApiError, mkWorld (users w1) (fsm w) (calls w ++ [denial_call env message]))
    else
      (Return tt, mkWorld (users w1) (delete (state_key message) (fsm w))
                    (calls w ++ [denial_call env message])).
Proof.
  unfold denial_call.
  split_ensure; intros -> Hle; simpl;
    match goal with |- context [(?x <=? 0)%Z] => assert ((x <=? 0)%Z = true) as -> by lia end;
    simpl; oracle; done.
Qed.

Lemma handle_photo_allowed_calls CHANNEL_ID env message w :
  raises env handle_photo_select = false →
  (0 < stored_uses_left env message w)%Z →
  Allowed CHANNEL_ID env message w.
Proof.
  unfold Allowed, processing_call.
  split_ensure; intros -> Hpos; simpl;
    match goal with |- context [(?x <=? 0)%Z] => assert ((x <=? 0)%Z = false) as -> by lia end;
    simpl; destruct CHANNEL_ID;
    repeat oracle; rewrite <- ?app_assoc; simpl; eauto.
Qed.

Lemma Denied_not_Allowed CHANNEL_ID env message w :
  Denied CHANNEL_ID env message w → Allowed CHANNEL_ID env message w → False.
Proof.
  unfold Denied, Allowed. intros -> [rest Hrest].
  apply app_inv_head in Hrest. discriminate Hrest.
Qed.

(** The gate in one statement: once its read goes through, the event is
    denied exactly when the value read is not positive, and allowed
    otherwise. *)
Lemma quota_gate_decides CHANNEL_ID env message w :
  raises env handle_photo_select = false →
  ((stored_uses_left env message w <= 0)%Z ↔ Denied CHANNEL_ID env message w) ∧
  ((0 < stored_uses_left env message w)%Z ↔ Allowed CHANNEL_ID env message w).
Proof.
  intros Esel.
  destruct (Z_le_gt_dec (stored_uses_left env message w) 0) as [Hle|Hgt].
  - assert (Denied CHANNEL_ID env message w) as HD.
    { unfold Denied. rewrite handle_photo_denied_run by done. simpl.
      by destruct (raises env handle_photo_denied). }
    split; split; try done; try lia.
    intros HA. destruct (Denied_not_Allowed _ _ _ _ HD HA).
  - assert (Allowed CHANNEL_ID env message w) as HA.
    { apply handle_photo_allowed_calls; [done|lia]. }
    split; split; try done; try lia.
    intros HD. destruct (Denied_not_Allowed _ _ _ _ HD HA).
Qed.

(** ** Sequences of photo events of one user *)

Lemma succeeds_consumes env message w :
  succeeds env = true →
  (0 < stored_uses_left env message w)%Z →
  consumes env message w = true.
Proof.
  unfold succeeds, consumes. intros Hs Hpos.
  rewrite !andb_true_iff in Hs. destruct Hs as [[[[Hsel Hproc] Hdel] Hupd] _].
  assert ((0 <? stored_uses_left env message w)%Z = true) as -> by lia.
  by rewrite Hsel, Hproc, Hdel, Hupd.
Qed.

Lemma not_delivers_not_consumes env message w :
  delivers env = false → consumes env message w = false.
Proof.
  unfold consumes. intros ->. by rewrite andb_false_r.
Qed.

Lemma consumes_inv env message w :
  consumes env message w = true →
  raises env handle_photo_select = false ∧
  (0 < stored_uses_left env message w)%Z ∧
  raises env handle_photo_openai = false ∧
  raises env handle_photo_result = false ∧
  raises env handle_photo_update = false.
Proof.
  unfold consumes, delivers. intros H.
  rewrite !andb_true_iff, !negb_true_iff in H.
  destruct H as [[[[Hsel Hpos] _] [[[_ _] Hai] Hres]] Hupd].
  split_and!; try done. lia.
Qed.

(** The value the gate read, after the handler. *)
Lemma handle_photo_stored CHANNEL_ID env message w :
  (0 < stored_uses_left env message w)%Z →
  Sql.select_uses_left (from_user message)
    (users (handle_photo CHANNEL_ID env message w).2) =
    Some (if consumes env message w
          then stored_uses_left env message w - 1
          else stored_uses_left env message w)%Z.
Proof.
  intros Hpos. rewrite handle_photo_table. simpl.
  unfold stored_uses_left, Sql.select_uses_left in *.
  destruct (users (ensure_user env (from_user message) w).2 !! from_user message)
    as [r1|] eqn:E1; simpl in *; [|lia].
  destruct (consumes env message w).
  - rewrite decrement_lookup_eq, E1. done.
  - rewrite E1. done.
Qed.

Lemma photo_events_uses_left CHANNEL_ID envs message : ∀ w r,
  users w !! from_user message = Some r →
  Forall (λ env, succeeds env = true ∨ delivers env = false) envs →
  (Z.of_nat (successes envs) <= uses_left r)%Z →
  uses_left <$> users (photo_events CHANNEL_ID envs message w) !! from_user message =
    Some (uses_left r - Z.of_nat (successes envs))%Z.
Proof.
  induction envs as [|env envs IH]; intros w r Hr Hall Hle.
  - simpl. rewrite Hr. simpl. f_equal. unfold successes. simpl. lia.
  - apply Forall_cons in Hall as [Hhead Hall]. simpl.
    pose proof (handle_photo_uses_left CHANNEL_ID env message w r Hr) as Hstep.
    destruct (users (handle_photo CHANNEL_ID env message w).2 !! from_user message)
      as [r'|] eqn:Hr'; [|done].
    simpl in Hstep. injection Hstep as Hstep.
    unfold successes in *. rewrite filter_cons in *.
    destruct Hhead as [Hs|Hd].
    + rewrite decide_True in * by done. simpl in Hle.
      rewrite succeeds_consumes in Hstep; [|done|].
      2:{ rewrite (stored_uses_left_present _ _ _ _ Hr). lia. }
      rewrite (IH _ r' Hr' Hall) by lia.
      f_equal. simpl. lia.
    + assert (succeeds env = false) as Hns.
      { unfold succeeds. rewrite Hd. by rewrite !andb_false_r. }
      rewrite decide_False in * by (rewrite Hns; done).
      rewrite not_delivers_not_consumes in Hstep by done.
      rewrite (IH _ r' Hr' Hall) by lia.
      f_equal. lia.
Qed.

(* ===================================================================== *)
(** * [cmd_activate_user] *)
(* ===================================================================== *)



(* ===================================================================== *)
(** * The quota properties *)
(* ===================================================================== *)

(** C1.  For a photo event that passes the quota gate (the gate's read goes
    through and finds [uses_left > 0]): after the handler the sender's
    [uses_left] is the value read or exactly one less; it is one less only
    if the inference call and the delivery of its result went through, and
    it is one less whenever the whole analysis succeeds; if the inference
    call or the delivery of the result raises, [uses_left] is as read and
    the handler answers the generic failure text (once the announcement of
    line 392 has let it enter the [try]).  Over a sequence of photo events of
    a user whose account stands at the free limit, each either succeeding or
    failing to deliver, with [N <= limit] successes, [uses_left] ends at
    [limit - N]. *)
Theorem quota_consumed_only_on_success (CHANNEL_ID : option string)
    (message : Message) (w : World) :
  (∀ env,
     raises env handle_photo_select = false →
     (0 < stored_uses_left env message w)%Z →
     let stored := stored_uses_left env message w in
     let w' := (handle_photo CHANNEL_ID env message w).2 in
     let left := Sql.select_uses_left (from_user message) (users w') in
     (left = Some (stored - 1)%Z ∨ left = Some stored) ∧
     (left = Some (stored - 1)%Z →
        raises env handle_photo_openai = false ∧
        raises env handle_photo_result = false) ∧
     (succeeds env = true → left = Some (stored - 1)%Z) ∧
     (raises env handle_photo_openai = true ∨ raises env handle_photo_result = true →
        left = Some stored ∧
        (raises env handle_photo_processing = false →
         (send_message (chat_int (chat message)) MSG_ANALYSIS_FAILED,
          negb (raises env handle_photo_failed)) ∈ calls w'))) ∧
  (∀ envs r,
     users w !! from_user message = Some r →
     uses_left r = FREE_USES_LIMIT →
     Forall (λ env, succeeds env = true ∨ delivers env = false) envs →
     (Z.of_nat (successes envs) <= FREE_USES_LIMIT)%Z →
     uses_left <$> users (photo_events CHANNEL_ID envs message w) !! from_user message =
       Some (FREE_USES_LIMIT - Z.of_nat (successes envs))%Z).
Proof.
  split.
  - intros env Esel Hpos stored w' left.
    assert (Hleft : left = Some (if consumes env message w then stored - 1 else stored)%Z).
    { subst left w' stored. by apply handle_photo_stored. }
    assert (Hfail : raises env handle_photo_openai = true ∨
                    raises env handle_photo_result = true → delivers env = false).
    { unfold delivers. intros [-> | ->]; simpl; by rewrite ?andb_false_r. }
    split_and!.
    + rewrite Hleft. destruct (consumes env message w); auto.
    + intros Hdec. rewrite Hleft in Hdec.
      destruct (consumes env message w) eqn:Hc.
      * apply consumes_inv in Hc. tauto.
      * injection Hdec. lia.
    + intros Hs. rewrite Hleft, succeeds_consumes; done.
    + intros Hraise. specialize (Hfail Hraise). split.
      * rewrite Hleft, not_delivers_not_consumes; done.
      * intros Eproc. subst w'. by apply handle_photo_failure_answer.
  - intros envs r Hr Hlimit Hall Hle. rewrite <- Hlimit.
    apply photo_events_uses_left; [done|done|lia].
Qed.



(* ===================================================================== *)
(** * The broadcast *)
(* ===================================================================== *)

Lemma select_user_ids_length (t : gmap Z Row) :
  length (Sql.select_user_ids t) = size t.
Proof.
  unfold Sql.select_user_ids.
  rewrite (Permutation_length (merge_sort_Permutation _ _)).
  by rewrite length_map, length_map_to_list.
Qed.

Lemma select_user_ids_elem (t : gmap Z Row) u :
  u ∈ Sql.select_user_ids t ↔ is_Some (t !! u).
Proof.
  unfold Sql.select_user_ids. rewrite merge_sort_Permutation.
  rewrite list_elem_of_fmap. split.
  - intros [[k r] [-> Hin]]. apply elem_of_map_to_list in Hin. simpl. eauto.
  - intros [r Hr]. exists (u, r). split; [done|]. by apply elem_of_map_to_list.
Qed.

Lemma select_user_ids_NoDup (t : gmap Z Row) : NoDup (Sql.select_user_ids t).
Proof.
  unfold Sql.select_user_ids. rewrite merge_sort_Permutation.
  apply NoDup_fst_map_to_list.
Qed.

Lemma failures_le env targets : failures env targets ≤ length targets.
Proof. unfold failures. apply length_filter. Qed.

(** The loop never raises; it attempts every target of the list it was
    given, whatever other tasks do to the table meanwhile, and its two
    counters split the targets into delivered and failed. *)
Lemma broadcast_loop_run env body targets : ∀ success failed w,
  ∃ t',
    broadcast_loop env body targets success failed w =
      (Return (success + (length targets - failures env targets),
               failed + failures env targets),
       mkWorld t' (fsm w) (calls w ++ deliveries env body targets)).
Proof.
  induction targets as [|user rest IH]; intros success failed w.
  - exists (users w). simpl. unfold failures, deliveries. simpl.
    rewrite app_nil_r, !Nat.add_0_r. by destruct w.
  - simpl. run_monad. unfold interleave. simpl.
    pose proof (failures_le env rest) as Hle.
    unfold failures in *. rewrite filter_cons.
    destruct (send_raises env user) eqn:E; simpl;
      edestruct IH as [t' ->]; exists t'; simpl;
      rewrite <- app_assoc; simpl;
      do 3 f_equal; lia.
Qed.

Lemma process_broadcast_run CHANNEL_ID env message body w :
  nonempty_text message = Some body →
  raises env process_broadcast_execute = false →
  let targets := Sql.select_user_ids (users w) in
  let failed := failures env targets in
  ∃ t',
    process_broadcast CHANNEL_ID env message w =
      (if raises env process_broadcast_summary then Raise ApiError else Return tt,
       mkWorld t' (delete (state_key message) (fsm w))
         (calls w ++ deliveries env body targets ++ channel_notice CHANNEL_ID env body ++
          [summary_call env message (length targets - failed) failed])).
Proof.
  intros Hbody Eexec targets failed.
  unfold process_broadcast. rewrite Hbody. run_monad. rewrite Eexec.
  destruct (broadcast_loop_run env body targets 0 0 w) as [t' Hloop].
  fold targets. rewrite Hloop. exists t'. simpl.
  unfold channel_notice, summary_call. fold failed.
  destruct CHANNEL_ID; simpl; repeat oracle; rewrite <- ?app_assoc; done.
Qed.

(** C4.  A broadcast whose listing goes through works on the ids fetched
    once at line 231: with [K] the number of accounts at that point and [F]
    the number of them whose delivery raises, the handler attempts every
    one of the [K] ids exactly once and in order (no delivery failure stops
    the loop, and writes made to the table by other tasks during the run
    add or remove no target), then the optional channel notice, and tells
    the administrator, in the text of line 248, [K - F] messages sent and
    [F] errors, so that the two figures add up to [K]. *)
Theorem broadcast_accounting (CHANNEL_ID : option string) (env : Env)
    (message : Message) (body : string) (w : World) :
  nonempty_text message = Some body →
  raises env process_broadcast_execute = false →
  let targets := Sql.select_user_ids (users w) in
  let K := size (users w) in
  let F := length (filter (λ user, send_raises env user = true) targets) in
  let w' := (process_broadcast CHANNEL_ID env message w).2 in
  length targets = K ∧ NoDup targets ∧
  (∀ user, user ∈ targets ↔ is_Some (users w !! user)) ∧
  F ≤ K ∧ (K - F) + F = K ∧
  calls w' =
    calls w ++
    map (λ user, (send_message (chat_int user) body, negb (send_raises env user)))
      targets ++
    match CHANNEL_ID with
    | Some channel =>
        [(send_message (chat_name channel) ("📢 Новая рассылка: " +:+ body),
          negb (raises env process_broadcast_channel))]
    | None => []
    end ++
    [(send_message (chat_int (chat message))
        ("✅ Рассылка завершена
Отправлено: " +:+ pretty (K - F) +:+ "
Ошибок: " +:+ pretty F),
      negb (raises env process_broadcast_summary))].
Proof.
  intros Hbody Eexec targets K F w'.
  assert (HK : length targets = K) by apply select_user_ids_length.
  assert (HF : F ≤ K).
  { rewrite <- HK. apply failures_le. }
  split_and!; try done.
  - apply select_user_ids_NoDup.
  - apply select_user_ids_elem.
  - lia.
  - destruct (process_broadcast_run CHANNEL_ID env message body w Hbody Eexec) as [t' Hrun].
    subst w'. rewrite Hrun. simpl. fold targets. rewrite HK.
    unfold failures. fold F. reflexivity.
Qed.

(* ===================================================================== *)
(** * The dialog state after the state-specific handlers *)
(* ===================================================================== *)

Lemma handle_photo_returns_idle CHANNEL_ID env message w :
  (handle_photo CHANNEL_ID env message w).1 = Return tt →
  dialog_state message (handle_photo CHANNEL_ID env message w).2 = Idle.
Proof.
  unfold dialog_state, Idle.
  split_ensure;
    (oracle; [done|]);
    match goal with |- context [(?x <=? 0)%Z] => destruct (x <=? 0)%Z end; simpl;
    (oracle; [done|]); try (intros _; apply lookup_delete_eq);
    destruct CHANNEL_ID; repeat oracle; intros H; try done; apply lookup_delete_eq.
Qed.

(** Past the announcement of line 392 the [finally] clause clears the
    state on every path, also when the failure answer itself raises. *)
Lemma handle_photo_finally_idle CHANNEL_ID env message w :
  raises env handle_photo_select = false →
  (0 < stored_uses_left env message w)%Z →
  raises env handle_photo_processing = false →
  dialog_state message (handle_photo CHANNEL_ID env message w).2 = Idle.
Proof.
  unfold dialog_state, Idle.
  split_ensure; intros -> Hpos ->; simpl;
    match goal with |- context [(?x <=? 0)%Z] => assert ((x <=? 0)%Z = false) as -> by lia end;
    simpl; destruct CHANNEL_ID; repeat oracle; apply lookup_delete_eq.
Qed.

Lemma try_finally_state_clear {A} (body : M A) message w :
  dialog_state message (try_finally body (state_clear message) w).2 = Idle.
Proof.
  unfold dialog_state, Idle, try_finally, state_clear.
  destruct (body w) as [r w1]. simpl. apply lookup_delete_eq.
Qed.

(** With a text to send, the [finally] of line 253 clears the state on
    every path. *)
Lemma process_broadcast_finally_idle CHANNEL_ID env message body w :
  nonempty_text message = Some body →
  dialog_state message (process_broadcast CHANNEL_ID env message w).2 = Idle.
Proof.
  unfold process_broadcast. intros ->. apply try_finally_state_clear.
Qed.

Lemma process_broadcast_returns_idle CHANNEL_ID env message w :
  (process_broadcast CHANNEL_ID env message w).1 = Return tt →
  dialog_state message (process_broadcast CHANNEL_ID env message w).2 = Idle.
Proof.
  destruct (nonempty_text message) as [body|] eqn:Hbody.
  - intros _. by apply (process_broadcast_finally_idle _ _ _ body).
  - unfold dialog_state, Idle, process_broadcast. rewrite Hbody.
    run_monad. simpl. oracle; [done|]. intros _. apply lookup_delete_eq.
Qed.

(** Where the state is cleared.  Whenever [handle_photo] (run in
    [AwaitingPhoto]) or [process_broadcast] (run in
    [AwaitingBroadcastText]) returns, the
    sender's dialog state is [Idle]: after a successful analysis, a failed
    one, a denial by the gate, an empty broadcast text, a broadcast with
    failed deliveries, and a failed listing of the users.  Inside the
    [try ... finally] of either handler the state is cleared even when the
    handler ends by raising. *)
Theorem state_cleared_on_return (CHANNEL_ID : option string) (env : Env)
    (message : Message) (w : World) :
  (dialog_state message w = AwaitingPhoto →
   (handle_photo CHANNEL_ID env message w).1 = Return tt →
   dialog_state message (handle_photo CHANNEL_ID env message w).2 = Idle) ∧
  (dialog_state message w = AwaitingBroadcastText →
   (process_broadcast CHANNEL_ID env message w).1 = Return tt →
   dialog_state message (process_broadcast CHANNEL_ID env message w).2 = Idle) ∧
  (raises env handle_photo_select = false →
   (0 < stored_uses_left env message w)%Z →
   raises env handle_photo_processing = false →
   dialog_state message (handle_photo CHANNEL_ID env message w).2 = Idle) ∧
  (∀ body, nonempty_text message = Some body →
   dialog_state message (process_broadcast CHANNEL_ID env message w).2 = Idle).
Proof.
  split_and!.
  - intros _. apply handle_photo_returns_idle.
  - intros _. apply process_broadcast_returns_idle.
  - apply handle_photo_finally_idle.
  - intros body. apply process_broadcast_finally_idle.
Qed.

(** C3.  The dialog state is not cleared on every outcome.  [handle_photo]
    ends on the exception and leaves the sender's dialog state as it was
    (awaiting the photo) when the gate's read raises (line 381), when the
    denial answer raises (line 386, the [state.clear()] of line 388 comes
    after it) and when the processing notice raises (line 392, before the
    [try] whose [finally] clears the state); [process_broadcast] does the
    same (awaiting the text) when the warning about an empty text raises
    (line 225, the [state.clear()] of line 226 comes after it). *)
Theorem state_kept_on_early_exception (CHANNEL_ID : option string) (env : Env)
    (message : Message) (w : World) :
  (raises env handle_photo_select = true →
   (handle_photo CHANNEL_ID env message w).1 = Raise sqlite3_Error ∧
   dialog_state message (handle_photo CHANNEL_ID env message w).2 =
     dialog_state message w) ∧
  (raises env handle_photo_select = false →
   (stored_uses_left env message w <= 0)%Z →
   raises env handle_photo_denied = true →
   (handle_photo CHANNEL_ID env message w).1 = Raise ApiError ∧
   dialog_state message (handle_photo CHANNEL_ID env message w).2 =
     dialog_state message w) ∧
  (raises env handle_photo_select = false →
   (0 < stored_uses_left env message w)%Z →
   raises env handle_photo_processing = true →
   (handle_photo CHANNEL_ID env message w).1 = Raise ApiError ∧
   dialog_state message (handle_photo CHANNEL_ID env message w).2 =
     dialog_state message w) ∧
  (text message = None ∨ text message = Some "" →
   raises env process_broadcast_empty = true →
   (process_broadcast CHANNEL_ID env message w).1 = Raise ApiError ∧
   dialog_state message (process_broadcast CHANNEL_ID env message w).2 =
     dialog_state message w).
Proof.
  unfold dialog_state. split_and!.
  - intros E. unfold handle_photo. run_monad. rewrite ensure_user_run, E. simpl.
    by destruct (raises env ensure_user_execute).
  - intros Esel Hle E. rewrite handle_photo_denied_run by done. simpl. by rewrite E.
  - revert w. intros w. split_ensure; intros -> Hpos ->; simpl;
      match goal with
      | |- context [(?x <=? 0)%Z] => assert ((x <=? 0)%Z = false) as -> by lia
      end; done.
  - intros Htext E.
    assert (nonempty_text message = None) as Hnone.
    { unfold nonempty_text. by destruct Htext as [-> | ->]. }
    unfold process_broadcast. rewrite Hnone. run_monad. simpl. by rewrite E.
Qed.

(* ===================================================================== *)
(** * The administrator commands *)
(* ===================================================================== *)

(** C9.  A privileged command from anyone but the administrator does one
    thing: it answers the sender with the command's fixed denial text.  The
    check comes first, so the outcome depends on no store statement, on no
    argument of the command and on no other call; the table and the dialog
    states are as before and the only outbound call is that answer (no
    broadcast delivery, no notice). *)
Theorem authorization_gate (ADMIN_ID : Z) (py_split : string → list string)
    (py_int : string → option Z) (c : Privileged) (env : Env)
    (message : Message) (w : World) :
  from_user message ≠ ADMIN_ID →
  privileged_handler ADMIN_ID py_split py_int c env message w =
    (if raises env (denial_site c) then Raise ApiError else Return tt,
     mkWorld (users w) (fsm w)
       (calls w ++ [(send_message (chat_int (chat message)) (denial_text c),
                     negb (raises env (denial_site c)))])) ∧
  (denial_text c = MSG_NO_ACCESS ∨ denial_text c = MSG_NO_ACCESS_COMMAND).
Proof.
  intros Hne. apply Z.eqb_neq in Hne.
  split; [|destruct c; auto].
  destruct c; simpl;
    unfold cmd_stats, cmd_list_users, cmd_find_user, cmd_activate_user,
      cmd_broadcast, cmd_admin, is_admin;
    rewrite Hne; simpl; run_monad; oracle; done.
Qed.

(* ===================================================================== *)
(** * What a denied photo event writes *)
(* ===================================================================== *)


(* ===================================================================== *)
(** * The statistics *)
(* ===================================================================== *)

Lemma map_to_list_filter_perm (P : Z * Row → Prop) `{!∀ x, Decision (P x)}
    (t : gmap Z Row) :
  map_to_list (filter P t) ≡ₚ filter P (map_to_list t).
Proof.
  apply NoDup_Permutation.
  - apply NoDup_map_to_list.
  - apply NoDup_filter, NoDup_map_to_list.
  - intros [k r]. rewrite elem_of_map_to_list, list_elem_of_filter,
      elem_of_map_to_list, map_lookup_filter_Some. tauto.
Qed.

Lemma count_below_size limit (t : gmap Z Row) :
  Sql.count_below limit t =
    size (filter (λ kr : Z * Row, (uses_left kr.2 < limit)%Z) t).
Proof.
  unfold Sql.count_below.
  rewrite <- length_map_to_list.
  by rewrite (Permutation_length (map_to_list_filter_perm _ t)).
Qed.

(** C5, as amended.  When both statements of [get_user_stats] go through,
    it leaves the world as it is and returns the number of accounts and,
    as [paid_users], the number of accounts whose [uses_left] is strictly
    below the free-tier default 10: an account is among those counted
    exactly when it has a row with [uses_left < 10]. *)
Theorem subscriber_count_is_below_default (env : Env) (w : World) :
  raises env get_user_stats_totals = false →
  raises env get_user_stats_paid = false →
  get_user_stats env w =
    (Return (size (users w), Sql.sum_uses_left (users w), size (below_default (users w))), w) ∧
  (∀ uid r, below_default (users w) !! uid = Some r ↔
            users w !! uid = Some r ∧ (uses_left r < 10)%Z).
Proof.
  intros E1 E2. split.
  - unfold get_user_stats. run_monad. rewrite E1, E2. simpl.
    unfold Sql.count_all, below_default. by rewrite count_below_size.
  - intros uid r. unfold below_default. by rewrite map_lookup_filter_Some.
Qed.

(* ===================================================================== *)
(** * Where storage errors go *)
(* ===================================================================== *)



(** The count of subscribers does not follow the sentinel: after the
    administrator activates account 7, that account holds 999 and the count
    is 0. *)
Lemma subscriber_count_misses_sentinel :
  let w := (cmd_activate_user sample_admin sample_split sample_int env_ok
              (admin_says "/activate 7") world_used).2 in
  Sql.select_uses_left 7 (users w) = Some UNLIMITED_SENTINEL ∧
  (get_user_stats env_ok w).1 = Return (1, Some 999%Z, 0) ∧
  ¬ counts_every_sentinel_holder env_ok w.
Proof.
  split_and!; [by vm_compute..|].
  intros H. specialize (H 1 (Some 999%Z) 0 ltac:(by vm_compute)).
  vm_compute in H. lia.
Qed.



(* ===================================================================== *)
(** * The theorems at the sample runs *)
(* ===================================================================== *)


Lemma quota_consumed_only_on_success_witness :
  Sql.select_uses_left 7
    (users (handle_photo None env_no_inference photo_from_7 world_new_user).2) = Some 10%Z ∧
  (send_message (chat_int 7) MSG_ANALYSIS_FAILED, true)
    ∈ calls (handle_photo None env_no_inference photo_from_7 world_new_user).2 ∧
  uses_left <$>
    users (photo_events None [env_ok; env_no_inference; env_ok] photo_from_7 world_new_user)
      !! 7%Z = Some 8%Z.
Proof.
  destruct (quota_consumed_only_on_success None photo_from_7 world_new_user) as [Hrun Hseq].
  destruct (Hrun env_no_inference eq_refl ltac:(by vm_compute)) as (_ & _ & _ & Hfail).
  destruct (Hfail (or_introl eq_refl)) as [Hsame Hanswer].
  split; [exact Hsame|]. split; [exact (Hanswer eq_refl)|].
  apply (Hseq [env_ok; env_no_inference; env_ok] (mkRow 10 "2024-05-01T09:00:00")).
  - reflexivity.
  - reflexivity.
  - constructor; [left; reflexivity|].
    constructor; [right; reflexivity|].
    constructor; [left; reflexivity|constructor].
  - vm_compute. discriminate.
Defined.


Lemma state_cleared_on_return_witness :
  dialog_state photo_from_7
    (handle_photo None env_no_inference photo_from_7
       (awaiting photo_from_7 await_photo world_new_user)).2 = Idle ∧
  dialog_state (admin_says "")
    (process_broadcast None env_ok (admin_says "")
       (awaiting (admin_says "") await_broadcast world_three)).2 = Idle.
Proof.
  destruct (state_cleared_on_return None env_no_inference photo_from_7
              (awaiting photo_from_7 await_photo world_new_user)) as (Hphoto & _).
  destruct (state_cleared_on_return None env_ok (admin_says "")
              (awaiting (admin_says "") await_broadcast world_three))
    as (_ & Hbroadcast & _).
  split.
  - apply Hphoto; by vm_compute.
  - apply Hbroadcast; by vm_compute.
Defined.

Lemma state_kept_on_early_exception_witness :
  let stuck := awaiting photo_from_7 await_photo world_exhausted in
  (handle_photo None env_no_reply photo_from_7 stuck).1 = Raise ApiError ∧
  dialog_state photo_from_7 (handle_photo None env_no_reply photo_from_7 stuck).2 =
    AwaitingPhoto ∧
  dialog_state (mkMessage sample_admin sample_admin None None)
    (process_broadcast None env_no_reply (mkMessage sample_admin sample_admin None None)
       (awaiting (mkMessage sample_admin sample_admin None None) await_broadcast
          world_three)).2 = AwaitingBroadcastText.
Proof.
  destruct (state_kept_on_early_exception None env_no_reply photo_from_7
              (awaiting photo_from_7 await_photo world_exhausted))
    as (_ & Hdenied & _ & _).
  destruct (state_kept_on_early_exception None env_no_reply
              (mkMessage sample_admin sample_admin None None)
              (awaiting (mkMessage sample_admin sample_admin None None) await_broadcast
                 world_three))
    as (_ & _ & _ & Hempty).
  destruct (Hdenied eq_refl ltac:(by vm_compute) eq_refl) as [Hraise Hstate].
  cbv zeta. split; [exact Hraise|]. split; [exact Hstate|].
  exact (proj2 (Hempty (or_introl eq_refl) eq_refl)).
Defined.

Lemma broadcast_accounting_witness :
  let w' := (process_broadcast (Some "@news") env_broadcast (admin_says "Hello")
               world_three).2 in
  calls w' =
    [(send_message (chat_int 7) "Hello", true);
     (send_message (chat_int 8) "Hello", false);
     (send_message (chat_int 9) "Hello", true);
     (send_message (chat_name "@news") "📢 Новая рассылка: Hello", true);
     (send_message (chat_int sample_admin) "✅ Рассылка завершена
Отправлено: 2
Ошибок: 1", true)] ∧
  is_Some (users w' !! 99%Z).
Proof.
  pose proof (broadcast_accounting (Some "@news") env_broadcast (admin_says "Hello")
                "Hello" world_three eq_refl eq_refl) as H.
  cbv zeta in H. destruct H as (_ & _ & _ & _ & _ & Hcalls).
  cbv zeta. split; [exact Hcalls|]. eexists. vm_compute. reflexivity.
Defined.

Lemma subscriber_count_is_below_default_witness :
  get_user_stats env_ok world_three = (Return (3, Some 1012%Z, 1), world_three).
Proof.
  exact (proj1 (subscriber_count_is_below_default env_ok world_three eq_refl eq_refl)).
Defined.



Lemma authorization_gate_witness :
  cmd_activate_user sample_admin sample_split sample_int env_ok
      (stranger_says "/activate 7") world_used =
    (Return tt,
     mkWorld (users world_used) (fsm world_used)
       [(send_message (chat_int 7) MSG_NO_ACCESS, true)]).
Proof.
  refine (proj1 (authorization_gate sample_admin sample_split sample_int slash_activate
                   env_ok (stranger_says "/activate 7") world_used _)).
  by vm_compute.
Defined.


(* ===================================================================== *)
(** * More on [cmd_activate_user] *)
(* ===================================================================== *)

(** A well-formed [/activate <id>] of the administrator on an existing
    account whose statements and first answer go through: the table is
    rewritten, the administrator is told, the user is notified, and the
    handler returns normally whether or not that notification raised. *)
Theorem activation_survives_failed_notice (ADMIN_ID : Z)
    (py_split : string → list string) (py_int : string → option Z)
    (env : Env) (message : Message) (w : World) (t cmd arg : string) (uid : Z) (r : Row) :
  from_user message = ADMIN_ID →
  text message = Some t →
  py_split t = [cmd; arg] →
  py_int arg = Some uid →
  Sql.fits_int64 uid = true →
  raises env cmd_activate_user_execute = false →
  raises env cmd_activate_user_commit = false →
  raises env cmd_activate_user_done = false →
  users w !! uid = Some r →
  cmd_activate_user ADMIN_ID py_split py_int env message w =
    (Return tt,
     mkWorld (Sql.activate uid (users w)) (fsm w)
       (calls w ++
        [(send_message (chat_int (chat message)) (activated_text uid), true);
         (send_message (chat_int uid) MSG_ACTIVATED_NOTICE,
          negb (raises env cmd_activate_user_notify))])).
Proof.
  intros Hadmin Ht Hsplit Hint Hfits Eexec Ecommit Edone Hr.
  unfold cmd_activate_user, is_admin, parts_of, int, bind_param, rowcount.
  rewrite Hadmin, Z.eqb_refl, Ht. run_monad. simpl.
  rewrite Hsplit, Hint, Hfits, Eexec, Ecommit. simpl.
  unfold Sql.rowcount. rewrite activate_lookup_eq, Hr. simpl.
  rewrite Edone. simpl. rewrite <- app_assoc. simpl.
  by destruct (raises env cmd_activate_user_notify).
Qed.

(** [/activate] on an id without an account: the statement touches no row,
    the administrator is told that the user is not in the database, and
    nobody is notified. *)
Theorem activation_of_unknown_account (ADMIN_ID : Z)
    (py_split : string → list string) (py_int : string → option Z)
    (env : Env) (message : Message) (w : World) (t cmd arg : string) (uid : Z) :
  from_user message = ADMIN_ID →
  text message = Some t →
  py_split t = [cmd; arg] →
  py_int arg = Some uid →
  Sql.fits_int64 uid = true →
  raises env cmd_activate_user_execute = false →
  raises env cmd_activate_user_commit = false →
  users w !! uid = None →
  cmd_activate_user ADMIN_ID py_split py_int env message w =
    answer env cmd_activate_user_missing message (activate_missing_text uid) w.
Proof.
  intros Hadmin Ht Hsplit Hint Hfits Eexec Ecommit Hnone.
  unfold cmd_activate_user, is_admin, parts_of, int, bind_param, rowcount.
  rewrite Hadmin, Z.eqb_refl, Ht. run_monad. simpl.
  rewrite Hsplit, Hint, Hfits, Eexec, Ecommit. simpl.
  unfold Sql.rowcount, Sql.activate. rewrite alter_id' by done.
  rewrite Hnone. simpl. by destruct (raises env cmd_activate_user_missing).
Qed.

(** Activating twice is safe: the second run reports success again and the
    table after it is the table after the first. *)
Theorem activation_twice (ADMIN_ID : Z)
    (py_split : string → list string) (py_int : string → option Z)
    (env1 env2 : Env) (message : Message) (w : World) (t cmd arg : string)
    (uid : Z) (r : Row) :
  from_user message = ADMIN_ID →
  text message = Some t →
  py_split t = [cmd; arg] →
  py_int arg = Some uid →
  Sql.fits_int64 uid = true →
  (∀ env, env = env1 ∨ env = env2 →
     raises env cmd_activate_user_execute = false ∧
     raises env cmd_activate_user_commit = false ∧
     raises env cmd_activate_user_done = false) →
  users w !! uid = Some r →
  let activate env := cmd_activate_user ADMIN_ID py_split py_int env message in
  let w1 := (activate env1 w).2 in
  let w2 := (activate env2 w1).2 in
  (activate env1 w).1 = Return tt ∧ (activate env2 w1).1 = Return tt ∧
  users w1 !! uid = Some (mkRow UNLIMITED_SENTINEL (last_active r)) ∧
  users w2 = users w1 ∧
  (send_message (chat_int (chat message)) (activated_text uid), true) ∈ calls w1 ∧
  calls w2 =
    calls w1 ++
    [(send_message (chat_int (chat message)) (activated_text uid), true);
     (send_message (chat_int uid) MSG_ACTIVATED_NOTICE,
      negb (raises env2 cmd_activate_user_notify))].
Proof.
  intros Hadmin Ht Hsplit Hint Hfits Hok Hr activate w1 w2.
  destruct (Hok env1 (or_introl eq_refl)) as (E1 & C1 & D1).
  destruct (Hok env2 (or_intror eq_refl)) as (E2 & C2 & D2).
  pose proof (activation_survives_failed_notice ADMIN_ID py_split py_int env1 message w
                t cmd arg uid r Hadmin Ht Hsplit Hint Hfits E1 C1 D1 Hr) as H1.
  assert (Hr1 : users w1 !! uid = Some (mkRow UNLIMITED_SENTINEL (last_active r))).
  { subst w1 activate. cbv beta. rewrite H1. simpl. by rewrite activate_lookup_eq, Hr. }
  pose proof (activation_survives_failed_notice ADMIN_ID py_split py_int env2 message w1
                t cmd arg uid _ Hadmin Ht Hsplit Hint Hfits E2 C2 D2 Hr1) as H2.
  subst w2. unfold activate in *. rewrite H2. subst w1. rewrite H1 in *. simpl in *.
  split_and!; try done.
  - apply map_eq. intros k. unfold Sql.activate.
    destruct (decide (k = uid)) as [->|Hne].
    + rewrite !lookup_alter_eq, Hr. done.
    + by rewrite !lookup_alter_ne.
  - apply elem_of_app. right. constructor.
Qed.

(** [/activate] checks its argument before it touches the store: with a
    number of words other than two the administrator gets the usage line,
    with a non-numeric id the request for a number; nothing else happens. *)
Theorem activation_rejects_malformed (ADMIN_ID : Z)
    (py_split : string → list string) (py_int : string → option Z)
    (env : Env) (message : Message) (w : World) (t : string) :
  from_user message = ADMIN_ID →
  text message = Some t →
  (length (py_split t) ≠ 2 →
   cmd_activate_user ADMIN_ID py_split py_int env message w =
     answer env cmd_activate_user_usage message MSG_ACTIVATE_USAGE w) ∧
  (∀ cmd arg, py_split t = [cmd; arg] → py_int arg = None →
   cmd_activate_user ADMIN_ID py_split py_int env message w =
     answer env cmd_activate_user_not_a_number message MSG_NOT_A_NUMBER w).
Proof.
  intros Hadmin Ht.
  unfold cmd_activate_user, is_admin, parts_of, int.
  rewrite Hadmin, Z.eqb_refl, Ht. run_monad. simpl. split.
  - intros Hlen. destruct (py_split t) as [|a [|b [|c l]]]; simpl in *; done.
  - intros cmd arg -> ->. done.
Qed.


(* ===================================================================== *)
(** * The commands that only read *)
(* ===================================================================== *)

(** [/stats], [/users], [/find] and [/admin] never write: whoever sends
    them, whatever the arguments and whichever calls raise, the table and
    the dialog states are as before. *)
Theorem admin_queries_read_only (ADMIN_ID : Z)
    (py_split : string → list string) (py_int : string → option Z)
    (c : Privileged) (env : Env) (message : Message) (w : World) :
  c ≠ slash_activate → c ≠ slash_broadcast →
  let w' := (privileged_handler ADMIN_ID py_split py_int c env message w).2 in
  users w' = users w ∧ fsm w' = fsm w.
Proof.
  intros Hact Hbro.
  destruct c; try done; simpl;
    unfold cmd_stats, cmd_list_users, cmd_find_user, cmd_admin, is_admin,
      get_user_stats, get_generation_count, parts_of, int, bind_param;
    destruct (from_user message =? ADMIN_ID)%Z; simpl; run_monad;
    repeat (simpl; first [oracle | case_match]); simpl; try done;
    simplify_eq; done.
Qed.

(** The bytewise order on text is transitive. *)
Lemma string_leb_trans (s1 s2 s3 : string) :
  String.leb s1 s2 = true → String.leb s2 s3 = true → String.leb s1 s3 = true.
Proof.
  unfold String.leb. revert s2 s3.
  induction s1 as [|c1 s1 IH]; intros [|c2 s2] [|c3 s3]; simpl; try done.
  unfold Ascii.compare.
  destruct (N.compare_spec (Ascii.N_of_ascii c1) (Ascii.N_of_ascii c2)) as [H12|H12|H12];
    [|clear IH|done];
    destruct (N.compare_spec (Ascii.N_of_ascii c2) (Ascii.N_of_ascii c3)) as [H23|H23|H23];
    try done.
  - rewrite H12, H23, N.compare_refl. apply IH.
  - rewrite H12. by apply N.compare_lt_iff in H23 as ->.
  - rewrite <- H23. by apply N.compare_lt_iff in H12 as ->.
  - assert (Ascii.N_of_ascii c1 < Ascii.N_of_ascii c3)%N as H13 by lia.
    by apply N.compare_lt_iff in H13 as ->.
Qed.

#[local] Instance listed_before_total : Total Sql.listed_before.
Proof.
  intros a b. unfold Sql.listed_before.
  destruct (decide (last_active a.2 = last_active b.2)) as [Heq|Hne].
  - destruct (Z.le_ge_cases a.1 b.1).
    + left. left. done.
    + right. left. split; [done|lia].
  - destruct (String.leb_total (last_active b.2) (last_active a.2)).
    + left. right. done.
    + right. right. split; [congruence|done].
Qed.

#[local] Instance listed_before_trans : Transitive Sql.listed_before.
Proof.
  intros a b c. unfold Sql.listed_before.
  intros [[Hab Kab]|[Hab Lab]] [[Hbc Kbc]|[Hbc Lbc]].
  - left. split; [congruence|lia].
  - right. rewrite Hab. auto.
  - right. rewrite <- Hbc. auto.
  - right. split; [|by eapply string_leb_trans].
    intros Hac. apply Hab. rewrite Hac in *.
    by apply String.leb_antisym.
Qed.

(** Two rows of different accounts are never listed both ways round, so the
    order of the listing is determined. *)
Lemma listed_before_antisym (a b : Z * Row) :
  Sql.listed_before a b → Sql.listed_before b a →
  a.1 = b.1 ∧ last_active a.2 = last_active b.2.
Proof.
  unfold Sql.listed_before.
  intros [[Hab Kab]|[Hab Lab]] [[Hba Kba]|[Hba Lba]]; try done.
  - split; [lia|done].
  - exfalso. apply Hab. by apply String.leb_antisym.
Qed.

(** [/stats] from the administrator with the store answering: the figure
    shown as subscribers and the figure shown as active generations are one
    and the same number, the count of accounts below the free limit. *)
Theorem stats_shows_one_count_twice (ADMIN_ID : Z) (env : Env) (message : Message)
    (w : World) :
  from_user message = ADMIN_ID →
  raises env get_user_stats_totals = false →
  raises env get_user_stats_paid = false →
  raises env get_generation_count_execute = false →
  cmd_stats ADMIN_ID env message w =
    answer env cmd_stats_answer message
      (stats_text (size (users w)) (size (below_default (users w)))
         (size (below_default (users w)))) w.
Proof.
  intros Hadmin E1 E2 E3.
  unfold cmd_stats, is_admin, get_user_stats, get_generation_count.
  rewrite Hadmin, Z.eqb_refl. run_monad. rewrite E1, E2, E3. simpl.
  unfold Sql.count_all, below_default. by rewrite count_below_size.
Qed.

Lemma sum_uses_left_None (t : gmap Z Row) : Sql.sum_uses_left t = None ↔ t = ∅.
Proof.
  unfold Sql.sum_uses_left. split.
  - destruct (map_to_list t) eqn:E; [|done]. intros _. by apply map_to_list_empty_iff.
  - intros ->. by rewrite map_to_list_empty.
Qed.

(** The total of remaining uses is undefined ([None], SQL's NULL) exactly
    when there is no account; the admin panel then shows 0 accounts, a total
    of 0 and 0 subscribers, the text it would show for a total of 0. *)
Theorem admin_panel_on_empty_store (ADMIN_ID : Z) (env : Env) (message : Message)
    (w : World) :
  from_user message = ADMIN_ID →
  raises env get_user_stats_totals = false →
  raises env get_user_stats_paid = false →
  (Sql.sum_uses_left (users w) = None ↔ users w = ∅) ∧
  (users w = ∅ →
   cmd_admin ADMIN_ID env message w =
     answer env cmd_admin_answer message (admin_text 0 (Some 0%Z) 0) w).
Proof.
  intros Hadmin E1 E2. split; [apply sum_uses_left_None|].
  intros Hempty.
  unfold cmd_admin, is_admin, get_user_stats.
  rewrite Hadmin, Z.eqb_refl. run_monad. rewrite E1, E2. simpl.
  rewrite Hempty. done.
Qed.

Arguments Sql.select_recent : simpl never.

(** The rows [/users] lists: at most 20 and all of them when there are no
    more, each a row of the table and no account twice; a row comes before
    another when its [last_active] is later, and for equal [last_active]
    when its id is smaller; every listed row comes before every row left
    out in that same order.  The administrator gets them in one message,
    or the notice that there are no users when the table is empty. *)
Theorem recent_users_listing (ADMIN_ID : Z) (env : Env) (message : Message) (w : World) :
  from_user message = ADMIN_ID →
  raises env cmd_list_users_execute = false →
  let rows := Sql.select_recent 20 (users w) in
  let comes_first (a b : Z * Row) :=
    (last_active a.2 = last_active b.2 ∧ (a.1 <= b.1)%Z) ∨
    (last_active a.2 ≠ last_active b.2 ∧
     String.leb (last_active b.2) (last_active a.2) = true) in
  length rows = 20 `min` size (users w) ∧
  NoDup rows.*1 ∧
  (∀ k r, (k, r) ∈ rows → users w !! k = Some r) ∧
  StronglySorted comes_first rows ∧
  (∀ x k r, x ∈ rows → users w !! k = Some r → (k, r) ∉ rows → comes_first x (k, r)) ∧
  (∀ a b, comes_first a b → comes_first b a →
     a.1 = b.1 ∧ last_active a.2 = last_active b.2) ∧
  cmd_list_users ADMIN_ID env message w =
    (if decide (users w = ∅)
     then answer env cmd_list_users_none message MSG_NO_USERS w
     else answer env cmd_list_users_answer message
            (foldl (λ acc kr,
                      acc +:+ "🆔 " +:+ pretty kr.1 +:+ " — Осталось: " +:+
                      pretty (uses_left kr.2) +:+ " — Активен: " +:+
                      last_active kr.2 +:+ "
")
                   "🧾 Последние пользователи:

" rows) w).
Proof.
  intros Hadmin Eexec rows comes_first.
  change comes_first with Sql.listed_before.
  assert (Hnil : users w = ∅ → rows = []).
  { intros He. subst rows. unfold Sql.select_recent. by rewrite He, map_to_list_empty. }
  set (l := merge_sort Sql.listed_before (map_to_list (users w))).
  assert (Hperm : l ≡ₚ map_to_list (users w)) by apply merge_sort_Permutation.
  assert (Hsorted : StronglySorted Sql.listed_before l)
    by (apply StronglySorted_merge_sort; apply _).
  assert (Hsplit : l = rows ++ drop 20 l) by (symmetry; apply take_drop).
  assert (Hin : ∀ k r, (k, r) ∈ l ↔ users w !! k = Some r).
  { intros k r. by rewrite Hperm, elem_of_map_to_list. }
  split_and!.
  - subst rows. unfold Sql.select_recent. fold l.
    by rewrite length_take, (Permutation_length Hperm), length_map_to_list.
  - assert (NoDup l.*1) as Hnd.
    { rewrite Hperm. apply NoDup_fst_map_to_list. }
    rewrite Hsplit, fmap_app in Hnd. by apply NoDup_app in Hnd as [? _].
  - intros k r Hk. apply Hin. rewrite Hsplit. apply elem_of_app. by left.
  - rewrite Hsplit in Hsorted. by apply StronglySorted_app_1_l in Hsorted.
  - intros x k r Hx Hk Hout. apply Hin in Hk.
    rewrite Hsplit in Hk, Hsorted. apply elem_of_app in Hk as [Hk|Hk]; [done|].
    by eapply StronglySorted_app_1_elem_of.
  - apply listed_before_antisym.
  - unfold cmd_list_users, is_admin. rewrite Hadmin, Z.eqb_refl. run_monad.
    rewrite Eexec. simpl.
    change (Sql.select_recent 20 (users w)) with rows.
    destruct (decide (users w = ∅)) as [Hempty|Hne].
    + rewrite (Hnil Hempty). simpl. by destruct (raises env cmd_list_users_none).
    + assert (rows ≠ []) as Hrows.
      { intros Hrows. apply Hne, map_to_list_empty_iff, Permutation_nil_r.
        rewrite <- Hperm.
        assert (length (take 20 l) = 0) as H0
          by (change (take 20 l) with rows; by rewrite Hrows).
        rewrite length_take in H0. destruct l; [done|simpl in H0; lia]. }
      destruct rows as [|row rows']; [done|]. simpl.
      by destruct (raises env cmd_list_users_answer).
Qed.

(** [/find <id>] from the administrator: the usage line for a number of
    words other than two, the request for a number for a non-numeric id,
    and, when the query goes through, the account's [uses_left] as stored
    or the notice that there is no such user. *)
Theorem find_reports_stored_uses (ADMIN_ID : Z)
    (py_split : string → list string) (py_int : string → option Z)
    (env : Env) (message : Message) (w : World) (t : string) :
  from_user message = ADMIN_ID →
  text message = Some t →
  (length (py_split t) ≠ 2 →
   cmd_find_user ADMIN_ID py_split py_int env message w =
     answer env cmd_find_user_usage message MSG_FIND_USAGE w) ∧
  (∀ cmd arg, py_split t = [cmd; arg] → py_int arg = None →
   cmd_find_user ADMIN_ID py_split py_int env message w =
     answer env cmd_find_user_not_a_number message MSG_NOT_A_NUMBER w) ∧
  (∀ cmd arg uid, py_split t = [cmd; arg] → py_int arg = Some uid →
   Sql.fits_int64 uid = true → raises env cmd_find_user_execute = false →
   cmd_find_user ADMIN_ID py_split py_int env message w =
     match users w !! uid with
     | Some r => answer env cmd_find_user_found message (found_text uid (uses_left r)) w
     | None => answer env cmd_find_user_missing message MSG_NOT_FOUND w
     end).
Proof.
  intros Hadmin Ht.
  unfold cmd_find_user, is_admin, parts_of, int, bind_param.
  rewrite Hadmin, Z.eqb_refl, Ht. run_monad. simpl. split_and!.
  - intros Hlen. destruct (py_split t) as [|a [|b [|c l]]]; simpl in *; done.
  - intros cmd arg -> ->. done.
  - intros cmd arg uid -> -> -> ->. simpl. unfold Sql.select_uses_left.
    destruct (users w !! uid) as [r|]; simpl; oracle; done.
Qed.

(* ===================================================================== *)
(** * More on the broadcast *)
(* ===================================================================== *)

Lemma broadcast_loop_quiet env body targets :
  (∀ user t, concurrent env user t = t) →
  ∀ success failed w,
    broadcast_loop env body targets success failed w =
      (Return (success + (length targets - failures env targets),
               failed + failures env targets),
       mkWorld (users w) (fsm w) (calls w ++ deliveries env body targets)).
Proof.
  intros Hquiet.
  induction targets as [|user rest IH]; intros success failed w.
  - simpl. unfold failures, deliveries. simpl.
    rewrite app_nil_r, !Nat.add_0_r. by destruct w.
  - simpl. run_monad. unfold interleave. simpl.
    pose proof (failures_le env rest) as Hle.
    unfold failures in *. rewrite filter_cons.
    destruct (send_raises env user) eqn:E; simpl;
      rewrite IH; simpl; rewrite Hquiet, <- app_assoc; simpl;
      do 3 f_equal; lia.
Qed.

(** The broadcast itself writes nothing to the table: when no other task
    writes during the run, the table after the handler is the table before
    it, whether the text was empty, the listing failed or the run went
    through. *)
Theorem broadcast_leaves_table (CHANNEL_ID : option string) (env : Env)
    (message : Message) (w : World) :
  (∀ user t, concurrent env user t = t) →
  users (process_broadcast CHANNEL_ID env message w).2 = users w.
Proof.
  intros Hquiet. unfold process_broadcast.
  destruct (nonempty_text message) as [body|].
  - run_monad. destruct (raises env process_broadcast_execute); simpl.
    + repeat oracle; done.
    + rewrite (broadcast_loop_quiet env body _ Hquiet). simpl.
      destruct CHANNEL_ID; repeat oracle; done.
  - run_monad. simpl. repeat oracle; done.
Qed.

(** A broadcast without text is refused before anything is sent: the only
    outbound call is the warning to the sender, no account is listed or
    written, and the dialog is closed when the warning went through. *)
Theorem empty_broadcast_sends_nothing (CHANNEL_ID : option string) (env : Env)
    (message : Message) (w : World) :
  text message = None ∨ text message = Some "" →
  process_broadcast CHANNEL_ID env message w =
    (if raises env process_broadcast_empty then Raise ApiError else Return tt,
     mkWorld (users w)
       (if raises env process_broadcast_empty then fsm w
        else delete (state_key message) (fsm w))
       (calls w ++ [(send_message (chat_int (chat message)) MSG_BROADCAST_EMPTY,
                     negb (raises env process_broadcast_empty))])).
Proof.
  intros Htext.
  assert (nonempty_text message = None) as Hnone.
  { unfold nonempty_text. by destruct Htext as [-> | ->]. }
  unfold process_broadcast. rewrite Hnone. run_monad. simpl. by oracle.
Qed.

(** The broadcast dialog: [/broadcast] from the administrator, once its
    prompt went through, leaves the administrator awaiting the text and
    writes nothing; if the prompt raises the dialog state stays as it was.
    The next message of the administrator in that chat, handled by
    [process_broadcast], closes the dialog again when it carries a text. *)
Theorem broadcast_dialog_round_trip (ADMIN_ID : Z) (CHANNEL_ID : option string)
    (env env' : Env) (command reply : Message) (body : string) (w : World) :
  from_user command = ADMIN_ID →
  state_key reply = state_key command →
  nonempty_text reply = Some body →
  let w1 := (cmd_broadcast ADMIN_ID env command w).2 in
  users w1 = users w ∧
  (raises env cmd_broadcast_prompt = false →
   (cmd_broadcast ADMIN_ID env command w).1 = Return tt ∧
   dialog_state command w1 = AwaitingBroadcastText) ∧
  (raises env cmd_broadcast_prompt = true →
   (cmd_broadcast ADMIN_ID env command w).1 = Raise ApiError ∧
   dialog_state command w1 = dialog_state command w) ∧
  dialog_state command (process_broadcast CHANNEL_ID env' reply w1).2 = Idle.
Proof.
  intros Hadmin Hkey Hbody w1. subst w1.
  unfold cmd_broadcast, is_admin. rewrite Hadmin, Z.eqb_refl. run_monad. simpl.
  split_and!.
  - by oracle.
  - intros ->. simpl. split; [done|]. unfold dialog_state. simpl.
    apply lookup_insert_eq.
  - intros ->. simpl. done.
  - pose proof (process_broadcast_finally_idle CHANNEL_ID env' reply body) as Hidle.
    unfold dialog_state in *. rewrite <- Hkey. apply Hidle. done.
Qed.

(* ===================================================================== *)
(** * More on [ensure_user], [cmd_start] and [handle_photo] *)
(* ===================================================================== *)




(** Photo events of one user never touch the account of another. *)
Theorem photo_events_leave_other_accounts (CHANNEL_ID : option string)
    (envs : list Env) (message : Message) (w : World) (other : Z) :
  other ≠ from_user message →
  users (photo_events CHANNEL_ID envs message w) !! other = users w !! other.
Proof.
  intros Hne. revert w. induction envs as [|env envs IH]; intros w; [done|].
  simpl. rewrite IH. by apply handle_photo_other_rows.
Qed.

(** Once the processing notice of line 392 has been sent, its retraction is
    attempted on every path (success, failed analysis, failed decrement,
    failed failure answer) and is the handler's last outbound call; the
    handler then returns normally unless the failure answer itself raised. *)
Theorem processing_notice_retracted (CHANNEL_ID : option string) (env : Env)
    (message : Message) (w : World) :
  raises env handle_photo_select = false →
  (0 < stored_uses_left env message w)%Z →
  raises env handle_photo_processing = false →
  let w' := (handle_photo CHANNEL_ID env message w).2 in
  (delete_message (chat_int (chat message)), negb (raises env handle_photo_delete))
    ∈ calls w' ∧
  last (calls w') =
    Some (delete_message (chat_int (chat message)), negb (raises env handle_photo_delete)) ∧
  ((handle_photo CHANNEL_ID env message w).1 = Return tt ∨
   raises env handle_photo_failed = true).
Proof.
  split_ensure; intros -> Hpos ->; simpl;
    match goal with |- context [(?x <=? 0)%Z] => assert ((x <=? 0)%Z = false) as -> by lia end;
    simpl; destruct CHANNEL_ID; repeat oracle;
    (split_and!; [set_solver|by rewrite last_snoc|auto]).
Qed.

(* ===================================================================== *)
(** * The handlers that answer with a picture *)
(* ===================================================================== *)

Ltac run_screen :=
  unfold send_photo_or_text, send_photo, try_except_all, lift, api, record_call,
    set_state, profile_query, mbind, MP_bind, mret, MP_ret in *.

(** [send_photo_or_text] returns normally exactly when the caption reached
    the chat, as the caption of the picture or inside one text; when it
    raises, nothing it attempted went through; in no case does it write the
    table or a dialog state. *)
Theorem send_photo_or_text_shows_caption (env : AssetEnv) (chat_id : Z)
    (img_path caption : string) (p : Screen) :
  let out := send_photo_or_text env chat_id img_path caption p in
  users (world out.2) = users (world p) ∧
  fsm (world out.2) = fsm (world p) ∧
  (out.1 = Return tt → shown chat_id caption p out.2) ∧
  (out.1 ≠ Return tt → out.1 = Raise ApiError ∧ nothing_shown p out.2).
Proof.
  run_screen. unfold shown, nothing_shown.
  destruct (path_exists env (path_join IMG_DIR img_path)); simpl.
  - destruct (asset_raises env send_photo_or_text_photo); simpl.
    + destruct (asset_raises env send_photo_or_text_fallback); simpl.
      * split_and!; try done. intros _. split; [done|].
        split; eexists; (split; [done|]); by repeat constructor.
      * split_and!; try done. intros _. right. exists MSG_IMAGE_FAILED. auto.
    + split_and!; try done. intros _. left. eauto.
  - destruct (asset_raises env send_photo_or_text_missing); simpl.
    + split_and!; try done. intros _. split; [done|].
      split.
      * exists []. by rewrite app_nil_r.
      * eexists. split; [done|]. by repeat constructor.
    + split_and!; try done. intros _. right. exists MSG_IMAGE_MISSING. auto.
Qed.

(** [/buy], the help button, the training programs and the IQ test are
    stateless: each only shows its own caption, returning normally exactly
    when it reached the chat, and none of them reads or writes the table or
    a dialog state. *)
Theorem info_commands_stateless (c : InfoCommand) (env : AssetEnv)
    (message : Message) (p : Screen) :
  let out := info_handler c env message p in
  out = send_photo_or_text env (chat message) (info_image c) (info_caption c) p ∧
  users (world out.2) = users (world p) ∧
  fsm (world out.2) = fsm (world p) ∧
  (out.1 = Return tt → shown (chat message) (info_caption c) p out.2).
Proof.
  pose proof (send_photo_or_text_shows_caption env (chat message) (info_image c)
                (info_caption c) p) as H.
  cbv zeta in *. destruct H as (Hu & Hf & Hs & _).
  assert (info_handler c env message p =
          send_photo_or_text env (chat message) (info_image c) (info_caption c) p) as ->
    by (by destruct c).
  done.
Qed.



(* ===================================================================== *)
(** * The further theorems at the sample runs *)
(* ===================================================================== *)

Lemma activation_survives_failed_notice_witness :
  cmd_activate_user sample_admin sample_split sample_int env_no_notice
      (admin_says "/activate 7") world_used =
    (Return tt,
     mkWorld (Sql.activate 7 (users world_used)) ∅
       [(send_message (chat_int sample_admin) (activated_text 7), true);
        (send_message (chat_int 7) MSG_ACTIVATED_NOTICE, false)]).
Proof.
  exact (activation_survives_failed_notice sample_admin sample_split sample_int
           env_no_notice (admin_says "/activate 7") world_used
           "/activate 7" "/activate" "7" 7%Z (mkRow 5 "2024-05-01T09:00:00")
           eq_refl eq_refl eq_refl eq_refl eq_refl eq_refl eq_refl eq_refl eq_refl).
Defined.

Lemma activation_of_unknown_account_witness :
  cmd_activate_user sample_admin sample_split sample_int env_ok
      (admin_says "/activate 7") world_empty =
    answer env_ok cmd_activate_user_missing (admin_says "/activate 7")
      (activate_missing_text 7) world_empty.
Proof.
  exact (activation_of_unknown_account sample_admin sample_split sample_int env_ok
           (admin_says "/activate 7") world_empty "/activate 7" "/activate" "7" 7%Z
           eq_refl eq_refl eq_refl eq_refl eq_refl eq_refl eq_refl eq_refl).
Defined.

Lemma activation_twice_witness :
  let activate env :=
    cmd_activate_user sample_admin sample_split sample_int env (admin_says "/activate 7") in
  users (activate env_no_notice (activate env_ok world_used).2).2 =
    users (activate env_ok world_used).2.
Proof.
  pose proof (activation_twice sample_admin sample_split sample_int env_ok env_no_notice
                (admin_says "/activate 7") world_used "/activate 7" "/activate" "7" 7%Z
                (mkRow 5 "2024-05-01T09:00:00") eq_refl eq_refl eq_refl eq_refl eq_refl)
    as H.
  cbv zeta in H.
  refine (proj1 (proj2 (proj2 (proj2 (H _ eq_refl))))).
  intros env [-> | ->]; split_and!; reflexivity.
Defined.

Lemma activation_rejects_malformed_witness :
  cmd_activate_user sample_admin sample_words sample_number env_ok
      (admin_says "/activate abc") world_used =
    answer env_ok cmd_activate_user_not_a_number (admin_says "/activate abc")
      MSG_NOT_A_NUMBER world_used.
Proof.
  exact (proj2 (activation_rejects_malformed sample_admin sample_words sample_number
                  env_ok (admin_says "/activate abc") world_used "/activate abc"
                  eq_refl eq_refl)
           "/activate" "abc" eq_refl eq_refl).
Defined.


Lemma admin_queries_read_only_witness :
  users (cmd_find_user sample_admin sample_split sample_int env_store_down
           (admin_says "/find 7") world_three).2 = users world_three.
Proof.
  refine (proj1 (admin_queries_read_only sample_admin sample_split sample_int slash_find
                   env_store_down (admin_says "/find 7") world_three _ _));
    discriminate.
Defined.

Lemma stats_shows_one_count_twice_witness :
  cmd_stats sample_admin env_ok (admin_says "/stats") world_three =
    answer env_ok cmd_stats_answer (admin_says "/stats") (stats_text 3 1 1) world_three.
Proof.
  exact (stats_shows_one_count_twice sample_admin env_ok (admin_says "/stats") world_three
           eq_refl eq_refl eq_refl eq_refl).
Defined.

Lemma admin_panel_on_empty_store_witness :
  cmd_admin sample_admin env_ok (admin_says "/admin") world_empty =
    answer env_ok cmd_admin_answer (admin_says "/admin") (admin_text 0 (Some 0%Z) 0)
      world_empty.
Proof.
  exact (proj2 (admin_panel_on_empty_store sample_admin env_ok (admin_says "/admin")
                  world_empty eq_refl eq_refl eq_refl) eq_refl).
Defined.

Lemma recent_users_listing_witness :
  length (Sql.select_recent 20 (users world_many)) = 20 ∧
  cmd_list_users sample_admin env_ok (admin_says "/users") world_ties =
    (Return tt,
     mkWorld (users world_ties) ∅
       [(send_message (chat_int sample_admin)
           "🧾 Последние пользователи:

🆔 3 — Осталось: 4 — Активен: 2024-05-01T10:00:00
🆔 -2 — Осталось: 10 — Активен: 2024-05-01T09:00:00
🆔 1 — Осталось: 10 — Активен: 2024-05-01T09:00:00
🆔 7 — Осталось: 0 — Активен: 2024-05-01T09:00:00
🆔 8 — Осталось: 999 — Активен: 2024-05-01T09:00:00
", true)]).
Proof.
  pose proof (recent_users_listing sample_admin env_ok (admin_says "/users") world_many
                eq_refl eq_refl) as H.
  cbv zeta in H. destruct H as (Hlen & _).
  pose proof (recent_users_listing sample_admin env_ok (admin_says "/users") world_ties
                eq_refl eq_refl) as H.
  cbv zeta in H. destruct H as (_ & _ & _ & _ & _ & _ & Hreply).
  split; [exact Hlen|].
  rewrite Hreply. vm_compute. reflexivity.
Defined.

Lemma find_reports_stored_uses_witness :
  cmd_find_user sample_admin sample_words sample_number env_ok
      (admin_says "/find 9") world_three =
    answer env_ok cmd_find_user_found (admin_says "/find 9") (found_text 9 999) world_three.
Proof.
  exact (proj2 (proj2 (find_reports_stored_uses sample_admin sample_words sample_number
                         env_ok (admin_says "/find 9") world_three "/find 9"
                         eq_refl eq_refl))
           "/find" "9" 9%Z eq_refl eq_refl eq_refl eq_refl).
Defined.

Lemma broadcast_leaves_table_witness :
  users (process_broadcast (Some "@news") env_ok (admin_says "Hello") world_three).2 =
    users world_three.
Proof.
  apply (broadcast_leaves_table (Some "@news") env_ok (admin_says "Hello") world_three).
  intros user t. reflexivity.
Defined.

Lemma empty_broadcast_sends_nothing_witness :
  process_broadcast None env_broadcast (mkMessage sample_admin sample_admin None None)
      world_three =
    (Return tt,
     mkWorld (users world_three) (delete (sample_admin, sample_admin) ∅)
       [(send_message (chat_int sample_admin) MSG_BROADCAST_EMPTY, true)]).
Proof.
  exact (empty_broadcast_sends_nothing None env_broadcast
           (mkMessage sample_admin sample_admin None None) world_three
           (or_introl eq_refl)).
Defined.

Lemma broadcast_dialog_round_trip_witness :
  dialog_state (admin_says "/broadcast")
    (cmd_broadcast sample_admin env_ok (admin_says "/broadcast") world_three).2 =
    AwaitingBroadcastText ∧
  dialog_state (admin_says "/broadcast")
    (process_broadcast None env_broadcast (admin_says "Hello")
       (cmd_broadcast sample_admin env_ok (admin_says "/broadcast") world_three).2).2 = Idle.
Proof.
  pose proof (broadcast_dialog_round_trip sample_admin None env_ok env_broadcast
                (admin_says "/broadcast") (admin_says "Hello") "Hello" world_three
                eq_refl eq_refl eq_refl) as H.
  cbv zeta in H. destruct H as (_ & Hopen & _ & Hclose).
  split; [exact (proj2 (Hopen eq_refl))|exact Hclose].
Defined.




Lemma photo_events_leave_other_accounts_witness :
  users (photo_events None [env_ok; env_ok] photo_from_7 world_three) !! 8%Z =
    users world_three !! 8%Z.
Proof.
  apply (photo_events_leave_other_accounts None [env_ok; env_ok] photo_from_7 world_three 8).
  discriminate.
Defined.

Lemma processing_notice_retracted_witness :
  last (calls (handle_photo None env_no_retraction photo_from_7 world_new_user).2) =
    Some (delete_message (chat_int 7), false) ∧
  (handle_photo None env_no_retraction photo_from_7 world_new_user).1 = Return tt.
Proof.
  pose proof (processing_notice_retracted None env_no_retraction photo_from_7
                world_new_user eq_refl ltac:(by vm_compute) eq_refl) as H.
  cbv zeta in H. destruct H as (_ & Hlast & Hret).
  split; [exact Hlast|].
  destruct Hret as [Hret|Hfalse]; [exact Hret|discriminate Hfalse].
Defined.

Lemma send_photo_or_text_shows_caption_witness :
  shown 7 CAPTION_HELP (screen_of world_empty)
    (send_photo_or_text assets_upload_fails 7 "help.png" CAPTION_HELP
       (screen_of world_empty)).2.
Proof.
  pose proof (send_photo_or_text_shows_caption assets_upload_fails 7%Z "help.png"
                CAPTION_HELP (screen_of world_empty)) as H.
  cbv zeta in H. destruct H as (_ & _ & Hshown & _).
  exact (Hshown eq_refl).
Defined.

Lemma info_commands_stateless_witness :
  shown 7 CAPTION_BUY (screen_of world_three)
    (cmd_buy assets_missing (stranger_says "/buy") (screen_of world_three)).2 ∧
  users (world (cmd_buy assets_missing (stranger_says "/buy") (screen_of world_three)).2) =
    users world_three.
Proof.
  pose proof (info_commands_stateless info_buy assets_missing (stranger_says "/buy")
                (screen_of world_three)) as H.
  cbv zeta in H. destruct H as (_ & Husers & _ & Hshown).
  split; [exact (Hshown eq_refl)|exact Husers].
Defined.



(* ===================================================================== *)
(** * Two photos of one user at once *)
(* ===================================================================== *)

(** The two stretches, run one after the other, are the handler. *)
Lemma handle_photo_in_two CHANNEL_ID env message w :
  handle_photo CHANNEL_ID env message w =
    bind (photo_gate env message)
      (λ allowed : bool, if allowed then photo_rest CHANNEL_ID env message else ret tt) w.
Proof.
  unfold handle_photo, photo_gate, photo_rest. run_monad.
  rewrite ensure_user_run. simpl.
  oracle; [done|].
  match goal with |- context [(?x <=? 0)%Z] => destruct (x <=? 0)%Z end; simpl.
  - oracle; done.
  - oracle; done.
Qed.

Lemma photo_gate_allows env message w r :
  raises env handle_photo_select = false →
  raises env handle_photo_processing = false →
  users w !! from_user message = Some r →
  (0 < uses_left r)%Z →
  (photo_gate env message w).1 = Return true ∧
  uses_left <$> users (photo_gate env message w).2 !! from_user message =
    Some (uses_left r).
Proof.
  intros Esel Eproc Hr Hpos.
  pose proof (ensure_user_keeps_uses_left env (from_user message) w _ _ Hr) as Hkeep.
  unfold photo_gate. run_monad.
  destruct (ensure_user env (from_user message) w) as [res w1] eqn:Hens.
  assert (res = Return tt) as -> by (rewrite ensure_user_run in Hens; congruence).
  simpl in *. rewrite Esel. simpl. unfold Sql.select_uses_left.
  destruct (users w1 !! from_user message) as [r1|] eqn:Hr1; simpl in *; [|done].
  injection Hkeep as Hkeep.
  assert ((uses_left r1 <=? 0)%Z = false) as -> by lia.
  simpl. rewrite Eproc. simpl. rewrite Hr1. simpl. by rewrite Hkeep.
Qed.

Lemma photo_rest_decrements CHANNEL_ID env message w :
  succeeds env = true →
  (photo_rest CHANNEL_ID env message w).1 = Return tt ∧
  users (photo_rest CHANNEL_ID env message w).2 =
    Sql.decrement (from_user message) (users w).
Proof.
  unfold succeeds, delivers. rewrite !andb_true_iff, !negb_true_iff.
  intros [[[[_ _] [[[E1 E2] E3] E4]] E5] E6].
  unfold photo_rest, analyse_photo. run_monad.
  rewrite E1, E2, E3, E4. simpl.
  destruct CHANNEL_ID; simpl; rewrite ?E5, ?E6; simpl;
    repeat oracle; rewrite ?E5, ?E6; simpl; done.
Qed.

(** The race between two photos of one user.  When the second event's gate
    runs while the first is still awaiting its analysis, both events are
    allowed on the same stored value, both analyses succeed and both
    decrements land: the account loses two uses, and an account that stood
    at 1 ends at -1.  Handled one after the other, the second event would
    have been denied. *)
Theorem interleaved_photos_overdraw (CHANNEL_ID : option string) (env1 env2 : Env)
    (first second : Message) (w : World) (r : Row) :
  from_user second = from_user first →
  users w !! from_user first = Some r →
  (0 < uses_left r)%Z →
  succeeds env1 = true →
  succeeds env2 = true →
  let gate1 := photo_gate env1 first w in
  let gate2 := photo_gate env2 second gate1.2 in
  let rest1 := photo_rest CHANNEL_ID env1 first gate2.2 in
  let rest2 := photo_rest CHANNEL_ID env2 second rest1.2 in
  gate1.1 = Return true ∧ gate2.1 = Return true ∧
  rest1.1 = Return tt ∧ rest2.1 = Return tt ∧
  uses_left <$> users rest2.2 !! from_user first = Some (uses_left r - 2)%Z ∧
  (uses_left r = 1%Z →
   uses_left <$> users rest2.2 !! from_user first = Some (-1)%Z ∧
   Denied CHANNEL_ID env2 second (handle_photo CHANNEL_ID env1 first w).2).
Proof.
  intros Hsame Hr Hpos Hs1 Hs2 gate1 gate2 rest1 rest2.
  assert (Hsel : ∀ env, succeeds env = true →
            raises env handle_photo_select = false ∧
            raises env handle_photo_processing = false).
  { intros env. unfold succeeds. rewrite !andb_true_iff, !negb_true_iff. tauto. }
  destruct (Hsel env1 Hs1) as [Esel1 Eproc1].
  destruct (Hsel env2 Hs2) as [Esel2 Eproc2].
  destruct (photo_gate_allows env1 first w r Esel1 Eproc1 Hr Hpos) as [Hg1 Hu1].
  fold gate1 in Hg1, Hu1.
  destruct (users gate1.2 !! from_user first) as [r1|] eqn:Hr1; [|done].
  injection Hu1 as Hu1.
  rewrite <- Hsame in Hr1.
  destruct (photo_gate_allows env2 second gate1.2 r1 Esel2 Eproc2 Hr1 ltac:(lia))
    as [Hg2 Hu2].
  fold gate2 in Hg2, Hu2. rewrite Hsame in Hu2.
  destruct (photo_rest_decrements CHANNEL_ID env1 first gate2.2 Hs1) as [Ha1 Ht1].
  fold rest1 in Ha1, Ht1.
  destruct (photo_rest_decrements CHANNEL_ID env2 second rest1.2 Hs2) as [Ha2 Ht2].
  fold rest2 in Ha2, Ht2.
  assert (Hfinal : uses_left <$> users rest2.2 !! from_user first =
                   Some (uses_left r - 2)%Z).
  { rewrite Ht2, Hsame, decrement_lookup_eq, Ht1, decrement_lookup_eq.
    destruct (users gate2.2 !! from_user first) as [r2|]; [|done].
    simpl in *. injection Hu2 as Hu2. f_equal. lia. }
  split_and!; try done.
  intros Hone. split; [rewrite Hfinal, Hone; done|].
  pose proof (handle_photo_uses_left CHANNEL_ID env1 first w r Hr) as Hseq.
  rewrite succeeds_consumes in Hseq;
    [|done|by rewrite (stored_uses_left_present _ _ _ _ Hr)].
  destruct (users (handle_photo CHANNEL_ID env1 first w).2 !! from_user first)
    as [r'|] eqn:Hr'; [|done].
  injection Hseq as Hseq. rewrite <- Hsame in Hr'.
  apply (quota_gate_decides CHANNEL_ID env2 second _ Esel2).
  rewrite (stored_uses_left_present _ _ _ _ Hr'). lia.
Qed.

Lemma interleaved_photos_overdraw_witness :
  let gate1 := photo_gate env_ok photo_from_7 world_last_use in
  let gate2 := photo_gate env_ok photo_from_7 gate1.2 in
  let rest1 := photo_rest None env_ok photo_from_7 gate2.2 in
  let rest2 := photo_rest None env_ok photo_from_7 rest1.2 in
  gate2.1 = Return true ∧
  uses_left <$> users rest2.2 !! 7%Z = Some (-1)%Z.
Proof.
  pose proof (interleaved_photos_overdraw None env_ok env_ok photo_from_7 photo_from_7
                world_last_use (mkRow 1 "2024-05-01T09:00:00")
                eq_refl eq_refl ltac:(by vm_compute) eq_refl eq_refl) as H.
  cbv zeta in H. destruct H as (_ & Hgate2 & _ & _ & _ & Hone).
  cbv zeta. split; [exact Hgate2|exact (proj1 (Hone eq_refl))].
Defined.
